(** * school-api: authentication flow

    A shallow embedding of the authentication core of the school REST API:

    - [src/middleware/authMiddleware.js]   (the [authenticate] middleware),
    - [src/controllers/authen.controller.js] ([register], [login],
      [getAllUsers]),
    - [src/controllers/course.controller.js] ([createCourse], the sibling
      handler that wraps its body in [try]/[catch]).

    JavaScript values are modelled as the code uses them: an absent header or
    environment variable is [None], a string is a [string], truthiness is
    written out ([if_falsy], [or_else]), [String.prototype.split] with a
    one-character separator is [split].  Handlers live in a small state-and-exception monad
    [M] over a [World] holding the response under construction, [req.user],
    the number of times the next stage was entered, and the credential
    store. *)

From Stdlib Require Import String Ascii List ZArith Lia Bool.
From Stdlib Require Import DecimalString DecimalZ.
Import ListNotations.

#[local] Open Scope string_scope.
#[local] Open Scope Z_scope.

(* ===================================================================== *)
(** ** JavaScript strings *)
(* ===================================================================== *)

Module Js.

(** [a || d] where [a] is [undefined] or a string and [d] a string. *)
Definition or_else (a : option string) (d : string) : string :=
  match a with
  | Some s => if String.eqb s "" then d else s
  | None => d
  end.

(** [if (!v) return a; ... v ...] for a value that is [undefined] or a
    string: [undefined] and the empty string are the falsy ones, and the
    rest of the function sees [v] as the non-empty string it then is. *)
Definition if_falsy {A} (v : option string) (a : A) (k : string -> A) : A :=
  match v with
  | None => a
  | Some s => if String.eqb s "" then a else k s
  end.

(** [s.split(sep)] for a separator of one character.  The result is never
    empty: [split sep ""] is [[""]], as in JavaScript. *)
Fixpoint split (sep : ascii) (s : string) : list string :=
  match s with
  | EmptyString => [EmptyString]
  | String c rest =>
      if Ascii.eqb c sep then EmptyString :: split sep rest
      else match split sep rest with
           | [] => [String c EmptyString]
           | word :: words => String c word :: words
           end
  end.

(** [arr[i]]: [undefined] out of range. *)
Definition index (arr : list string) (i : nat) : option string :=
  nth_error arr i.

(** Every character of [s] satisfies [p]. *)
Fixpoint all_chars (p : ascii -> bool) (s : string) : bool :=
  match s with
  | EmptyString => true
  | String c rest => p c && all_chars p rest
  end.

Definition lacks (sep : ascii) (s : string) : bool :=
  all_chars (fun c => negb (Ascii.eqb c sep)) s.

End Js.

(* ===================================================================== *)
(** ** Token alphabet and the codecs used inside a token *)
(* ===================================================================== *)

Module Codec.

(** Characters of one field inside a token segment: digits, [a]-[f] and
    [-], a subset of the base64url alphabet without the separators ["_"],
    ["."], ["$"] and [" "]. *)
Definition field_char (c : ascii) : bool :=
  let n := N_of_ascii c in
  ((48 <=? n)%N && (n <=? 57)%N)
  || ((97 <=? n)%N && (n <=? 102)%N)
  || (n =? 45)%N.

Definition hex_digit (n : N) : ascii :=
  if (n <? 10)%N then ascii_of_N (48 + n) else ascii_of_N (87 + n).

Definition hex_value (c : ascii) : option N :=
  let n := N_of_ascii c in
  if ((48 <=? n)%N && (n <=? 57)%N) then Some (n - 48)%N
  else if ((97 <=? n)%N && (n <=? 102)%N) then Some (n - 87)%N
  else None.

(** Two lower-case hexadecimal digits per character. *)
Fixpoint hex (s : string) : string :=
  match s with
  | EmptyString => EmptyString
  | String c rest =>
      let n := N_of_ascii c in
      String (hex_digit (n / 16)) (String (hex_digit (n mod 16)) (hex rest))
  end.

Fixpoint unhex (s : string) : option string :=
  match s with
  | EmptyString => Some EmptyString
  | String hi tail =>
      match tail with
      | EmptyString => None
      | String lo rest =>
          match hex_value hi, hex_value lo, unhex rest with
          | Some h, Some l, Some r => Some (String (ascii_of_N (16 * h + l)) r)
          | _, _, _ => None
          end
      end
  end.

(** Decimal rendering of an integer and its parser. *)
Definition dec (z : Z) : string := NilEmpty.string_of_int (Z.to_int z).

Definition undec (s : string) : option Z :=
  option_map Z.of_int (NilEmpty.int_of_string s).

End Codec.

(* ===================================================================== *)
(** ** Values, errors and the handler monad *)
(* ===================================================================== *)

#[local] Set Warnings "-register-all".

(** JSON bodies.  Objects keep their fields in order, as [res.json]
    serialises them. *)
Inductive Json : Type :=
| JNull
| JNum (n : Z)
| JStr (s : string)
| JArr (items : list Json)
| JObj (fields : list (string * Json)).

(** [{ message: text }] *)
Definition message (text : string) : Json := JObj [("message", JStr text)].

(** The exceptions that occur in the modelled code. *)
Inductive JsError : Type :=
| TypeError (msg : string)
| Error (msg : string)
| JsonWebTokenError (msg : string)
| TokenExpiredError (msg : string) (expiredAt : Z)
| SequelizeError (msg : string).

(** [err.message] *)
Definition err_message (e : JsError) : string :=
  match e with
  | TypeError m | Error m | JsonWebTokenError m
  | TokenExpiredError m _ | SequelizeError m => m
  end.

(** How a computation ends: with a value, or by throwing (for an [async]
    function: by rejecting its promise). *)
Inductive Completion (A : Type) : Type :=
| Normal (a : A)
| Abrupt (e : JsError).
Arguments Normal {A} a.
Arguments Abrupt {A} e.

(** The decoded token, as [jwt.verify] returns it. *)
Record Payload : Type := mkPayload {
  id : Z;
  email : string;
  iat : Z;
  exp : Z
}.

(** The response object: [res.statusCode] (200 until changed) and the body
    once one has been sent. *)
Record Res : Type := mkRes {
  statusCode : Z;
  sent : option Json
}.

Definition fresh_res : Res := {| statusCode := 200; sent := None |}.

(** Modelled from the spec: the [User] model of [src/models/index.js],
    whose definition is missing.  A row is {id, name, email, password
    hash}. *)
Record UserRow : Type := mkUser {
  user_id : Z;
  user_name : string;
  user_email : string;
  user_password : string
}.

(** Modelled from the spec: the credential store behind the ORM, whose
    set-up in [src/models/index.js] is missing.  [online] is false when the
    database cannot be reached, in which case every query rejects;
    [next_id] is the auto-increment counter. *)
Record Db : Type := mkDb {
  online : bool;
  users : list UserRow;
  next_id : Z
}.

(** What a request can touch. *)
Record World : Type := mkWorld {
  res : Res;
  req_user : option Payload;      (* req.user *)
  next_calls : nat;               (* how often next() was called *)
  db : Db
}.

(** The world in which a request arrives. *)
Definition arrive (d : Db) : World :=
  {| res := fresh_res; req_user := None; next_calls := 0; db := d |}.

Definition with_res (r : Res) (w : World) : World :=
  {| res := r; req_user := req_user w; next_calls := next_calls w; db := db w |}.

Definition with_user (p : Payload) (w : World) : World :=
  {| res := res w; req_user := Some p; next_calls := next_calls w; db := db w |}.

Definition with_db (d : Db) (w : World) : World :=
  {| res := res w; req_user := req_user w; next_calls := next_calls w; db := d |}.

Definition M (A : Type) : Type := World -> Completion A * World.

Definition ret {A} (a : A) : M A := fun w => (Normal a, w).

Definition bind {A B} (m : M A) (k : A -> M B) : M B :=
  fun w =>
    match m w with
    | (Normal a, w') => k a w'
    | (Abrupt e, w') => (Abrupt e, w')
    end.

Definition throw {A} (e : JsError) : M A := fun w => (Abrupt e, w).

(** [try { m } catch (err) { handler err }]: effects of [m] up to the
    throw are kept. *)
Definition try_catch {A} (m : M A) (handler : JsError -> M A) : M A :=
  fun w =>
    match m w with
    | (Normal a, w') => (Normal a, w')
    | (Abrupt e, w') => handler e w'
    end.

(** A synchronous library call that returns or throws. *)
Definition lift {A} (c : Completion A) : M A := fun w => (c, w).

Declare Scope js_scope.
Delimit Scope js_scope with js.
Notation "x <- m ;; k" := (bind m (fun x => k))
  (at level 61, m at next level, right associativity) : js_scope.
Notation "m ;; k" := (bind m (fun _ => k))
  (at level 61, right associativity) : js_scope.
#[local] Open Scope js_scope.

(** The request: the [Authorization] header, if any, and the parsed body. *)
Record Req (B : Type) : Type := mkReq {
  authorization : option string;
  body : B
}.
Arguments mkReq {B}.
Arguments authorization {B}.
Arguments body {B}.

(** The process environment as the modules read it when they are loaded. *)
Record Env : Type := mkEnv {
  JWT_SECRET : option string
}.

(* ===================================================================== *)
(** ** Express response methods *)
(* ===================================================================== *)

Module Response.

(** [res.status(code)]: sets the status and returns [res]. *)
Definition status (code : Z) : M unit :=
  fun w => (Normal tt, with_res {| statusCode := code; sent := sent (res w) |} w).

(** [res.json(body)]: sends [body] with the current status. *)
Definition json (payload : Json) : M unit :=
  fun w => (Normal tt,
            with_res {| statusCode := statusCode (res w); sent := Some payload |} w).

(** Property lookup on the response object: the sending method this code
    base uses is [json]; any other name used here is [undefined]. *)
Definition method (name : string) : option (Json -> M unit) :=
  if String.eqb name "json" then Some json else None.

(** [res.status(...).<name>(arg)]: calling [undefined] throws a
    [TypeError]. *)
Definition call (name : string) (arg : Json) : M unit :=
  match method name with
  | Some f => f arg
  | None => throw (TypeError ("res.status(...)." ++ name ++ " is not a function"))
  end.

End Response.

(* ===================================================================== *)
(** ** The [jsonwebtoken] package, idealised *)
(* ===================================================================== *)

(** A token is [header.payload.signature].  The signature is an ideal
    keyed tag: an injective image of the key and the signed text, so that
    a tag made under one key never verifies under another.  Time is the
    package's own clock, whole seconds since the epoch
    ([Math.floor(Date.now() / 1000)]). *)
Module Jwt.

(** The claims handed to [jwt.sign]: [{ id, email }]. *)
Record Claims : Type := mkClaims {
  claim_id : Z;
  claim_email : string
}.

Definition header_segment : string := Codec.hex "alg=HS256;typ=JWT".

Definition payload_segment (p : Payload) : string :=
  Codec.hex (email p) ++ "_" ++ Codec.dec (id p) ++ "_"
    ++ Codec.dec (iat p) ++ "_" ++ Codec.dec (exp p).

Definition decode_payload (segment : string) : option Payload :=
  match Js.split "_" segment with
  | [e; i; a; x] =>
      match Codec.unhex e, Codec.undec i, Codec.undec a, Codec.undec x with
      | Some e', Some i', Some a', Some x' =>
          Some {| id := i'; email := e'; iat := a'; exp := x' |}
      | _, _, _, _ => None
      end
  | _ => None
  end.

(** The keyed tag over the signing input. *)
Definition mac (key input : string) : string :=
  Codec.hex key ++ "_" ++ Codec.hex input.

Definition unit_seconds (u : ascii) : option Z :=
  if Ascii.eqb u "s" then Some 1
  else if Ascii.eqb u "m" then Some 60
  else if Ascii.eqb u "h" then Some 3600
  else if Ascii.eqb u "d" then Some 86400
  else None.

(** A time span such as ["1h"], in seconds: digits, then a unit. *)
Fixpoint timespan_from (digits : string) (s : string) : option Z :=
  match s with
  | EmptyString => None
  | String u EmptyString =>
      if String.eqb digits "" then None
      else match Codec.undec digits, unit_seconds u with
           | Some n, Some k => Some (n * k)
           | _, _ => None
           end
  | String c rest => timespan_from (digits ++ String c EmptyString) rest
  end.

Definition timespan (s : string) : option Z := timespan_from "" s.

(** The token text for a complete payload under [secret]. *)
Definition encode (p : Payload) (secret : string) : string :=
  let input := header_segment ++ "." ++ payload_segment p in
  input ++ "." ++ mac secret input.

(** [jwt.sign(claims, secret, { expiresIn })] at clock [now]: adds
    [iat = now] and [exp = iat + expiresIn]; throws without a secret or
    with an unreadable time span. *)
Definition sign (c : Claims) (secret : string) (expiresIn : string) (now : Z)
  : Completion string :=
  if String.eqb secret "" then Abrupt (Error "secretOrPrivateKey must have a value")
  else
    match timespan expiresIn with
    | None => Abrupt (Error "expiresIn should be a number of seconds or string representing a timespan")
    | Some span =>
        Normal (encode {| id := claim_id c; email := claim_email c;
                          iat := now; exp := now + span |} secret)
    end.

(** [jwt.verify(token, secret)] at clock [now]: shape, then payload, then
    signature, then expiry ([now >= exp] is expired). *)
Definition verify (token secret : string) (now : Z) : Completion Payload :=
  match Js.split "." token with
  | [h; p; s] =>
      match decode_payload p with
      | None => Abrupt (JsonWebTokenError "invalid token")
      | Some payload =>
          if negb (String.eqb h header_segment)
          then Abrupt (JsonWebTokenError "invalid algorithm")
          else if negb (String.eqb s (mac secret (h ++ "." ++ p)))
          then Abrupt (JsonWebTokenError "invalid signature")
          else if exp payload <=? now
          then Abrupt (TokenExpiredError "jwt expired" (exp payload))
          else Normal payload
      end
  | _ => Abrupt (JsonWebTokenError "jwt malformed")
  end.

End Jwt.

(* ===================================================================== *)
(** ** The [bcryptjs] package, idealised *)
(* ===================================================================== *)

(** A hash string is [$2a$<rounds>$<salt>$<digest>] where the digest is an
    injective image of the password: two passwords never share a digest.
    The salt drawn by [bcrypt.hash] is an explicit input. *)
Module Bcrypt.

Definition hash (password : string) (rounds : Z) (salt : string) : string :=
  "$2a$" ++ Codec.dec rounds ++ "$" ++ Codec.hex salt ++ "$" ++ Codec.hex password.

(** [bcrypt.compare(password, hash)]: false for anything that is not a
    hash of [password]. *)
Definition compare (password hashed : string) : bool :=
  match Js.split "$" hashed with
  | [_; version; _; _; digest] =>
      String.eqb version "2a" && String.eqb digest (Codec.hex password)
  | _ => false
  end.

End Bcrypt.

(* ===================================================================== *)
(** ** The [User] model *)
(* ===================================================================== *)

(** Modelled from the spec: the data-access interface of the credential
    store ([findByEmail], [create], [findAll]), whose model definition in
    [src/models] is missing.  Every call rejects while the store is
    unreachable; [create] enforces the unique email. *)
Module User.

Fixpoint lookup (mail : string) (rows : list UserRow) : option UserRow :=
  match rows with
  | [] => None
  | u :: rest => if String.eqb (user_email u) mail then Some u else lookup mail rest
  end.

Definition unreachable : JsError := SequelizeError "connect ECONNREFUSED".

(** [User.findOne({ where: { email } })] *)
Definition findOne (mail : string) : M (option UserRow) :=
  fun w =>
    if online (db w) then (Normal (lookup mail (users (db w))), w)
    else (Abrupt unreachable, w).

(** [User.create({ name, email, password })] *)
Definition create (name mail password : string) : M UserRow :=
  fun w =>
    if online (db w) then
      match lookup mail (users (db w)) with
      | Some _ => (Abrupt (SequelizeError "Validation error"), w)
      | None =>
          let u := {| user_id := next_id (db w); user_name := name;
                      user_email := mail; user_password := password |} in
          (Normal u,
           with_db {| online := true; users := users (db w) ++ [u];
                      next_id := next_id (db w) + 1 |} w)
      end
    else (Abrupt unreachable, w).

(** The value a row holds under a column name; [password] is the stored
    hash. *)
Definition column (u : UserRow) (name : string) : option Json :=
  if String.eqb name "id" then Some (JNum (user_id u))
  else if String.eqb name "name" then Some (JStr (user_name u))
  else if String.eqb name "email" then Some (JStr (user_email u))
  else if String.eqb name "password" then Some (JStr (user_password u))
  else None.

(** A row reduced to the columns asked for, in the order asked. *)
Definition project (attributes : list string) (u : UserRow) : Json :=
  JObj (flat_map (fun name => match column u name with
                              | Some v => [(name, v)]
                              | None => []
                              end) attributes).

(** [User.findAll({ attributes })]: every row, each with the columns
    named in [attributes]; a name that is no column makes the query
    fail. *)
Definition findAll (attributes : list string) : M (list Json) :=
  fun w =>
    if online (db w) then
      if forallb (fun name => match column (mkUser 0 "" "" "") name with
                              | Some _ => true
                              | None => false
                              end) attributes
      then (Normal (map (project attributes) (users (db w))), w)
      else (Abrupt (SequelizeError "Unknown column"), w)
    else (Abrupt unreachable, w).

End User.

(* ===================================================================== *)
(** ** [src/middleware/authMiddleware.js] *)
(* ===================================================================== *)

Module AuthMiddleware.

(** [const SECRET = process.env.JWT_SECRET || 'chaewon';] *)
Definition SECRET (env : Env) : string := Js.or_else (JWT_SECRET env) "chaewon".

(** [req.user = decoded;] *)
Definition set_user (decoded : Payload) : M unit :=
  fun w => (Normal tt, with_user decoded w).

(** [authenticate(req, res, next)] at clock [now].  The two early returns
    are the falsy branches; the second one calls [jjson], as the source
    spells it. *)
Definition authenticate {B} (env : Env) (now : Z) (req : Req B) (next : M unit)
  : M unit :=
  let authHeader := authorization req in
  Js.if_falsy authHeader
    (Response.status 401 ;; Response.call "json" (message "No token provided"))
    (fun header =>
       let token := Js.index (Js.split " " header) 1 in
       Js.if_falsy token
         (Response.status 401 ;; Response.call "jjson" (message "Token missing"))
         (fun tok =>
            try_catch
              (decoded <- lift (Jwt.verify tok (SECRET env) now) ;;
               set_user decoded ;;
               next)
              (fun _ =>
                 Response.status 401 ;;
                 Response.call "json" (message "Invalid token")))).

(** The stage after the middleware, as the pipeline sees it: entered once
    more.  Express runs the following handlers under its own [try], so the
    call itself returns. *)
Definition next_stage : M unit :=
  fun w => (Normal tt,
            {| res := res w; req_user := req_user w;
               next_calls := S (next_calls w); db := db w |}).

End AuthMiddleware.

(* ===================================================================== *)
(** ** [src/controllers/authen.controller.js] *)
(* ===================================================================== *)

Module AuthenController.

(** [const SECRET = process.env.JWT_SECRET || "IamJack21";] *)
Definition SECRET (env : Env) : string := Js.or_else (JWT_SECRET env) "IamJack21".

(** [req.body] of the two handlers: [{ name, email, password }] (login
    reads only the last two). *)
Record AuthBody : Type := mkAuthBody {
  body_name : string;
  body_email : string;
  body_password : string
}.

(** [{ id: user.id, email: user.email }] *)
Definition public_user (u : UserRow) : Json :=
  JObj [("id", JNum (user_id u)); ("email", JStr (user_email u))].

(** [register(req, res)]; [salt] is the salt [bcrypt.hash] draws. *)
Definition register (salt : string) (req : Req AuthBody) : M unit :=
  let name := body_name (body req) in
  let mail := body_email (body req) in
  let password := body_password (body req) in
  exists_ <- User.findOne mail ;;
  match exists_ with
  | Some _ => Response.status 400 ;; Response.call "json" (message "Email already exists")
  | None =>
      let hashedPassword := Bcrypt.hash password 10 salt in
      user <- User.create name mail hashedPassword ;;
      Response.status 201 ;;
      Response.call "json"
        (JObj [("message", JStr "User registered"); ("user", public_user user)])
  end.

(** [login(req, res)] at clock [now]. *)
Definition login (env : Env) (now : Z) (req : Req AuthBody) : M unit :=
  let mail := body_email (body req) in
  let password := body_password (body req) in
  user <- User.findOne mail ;;
  match user with
  | None => Response.status 404 ;; Response.call "json" (message "User not found")
  | Some user =>
      let valid := Bcrypt.compare password (user_password user) in
      if negb valid
      then Response.status 401 ;; Response.call "json" (message "Invalid email or password")
      else
        token <- lift (Jwt.sign {| Jwt.claim_id := user_id user;
                                   Jwt.claim_email := user_email user |}
                                (SECRET env) "1h" now) ;;
        Response.call "json"
          (JObj [("token", JStr token); ("user", public_user user)])
  end.

(** [getAllUsers(req, res)] *)
Definition getAllUsers {B} (req : Req B) : M unit :=
  users <- User.findAll ["id"; "name"; "email"] ;;
  Response.call "json" (JArr users).

End AuthenController.

(* ===================================================================== *)
(** ** [src/controllers/course.controller.js] *)
(* ===================================================================== *)

Module CourseController.

Section WithCourseModel.

(** [db.Course.create], a call into the ORM that returns the new row or
    rejects. *)
Variable Course_create : Json -> M Json.

(** [createCourse(req, res)] *)
Definition createCourse (req : Req Json) : M unit :=
  try_catch
    (course <- Course_create (body req) ;;
     Response.status 201 ;;
     Response.call "json" course)
    (fun err =>
       Response.status 500 ;;
       Response.call "json" (JObj [("error", JStr (err_message err))])).

End WithCourseModel.

End CourseController.

(* ===================================================================== *)
(** ** Requests and readings of a finished exchange *)
(* ===================================================================== *)

(** A request carrying only an [Authorization] header. *)
Definition bare (header : option string) : Req unit :=
  {| authorization := header; body := tt |}.

(** The world after [res.status(status).json(payload)]. *)
Definition respond (status : Z) (payload : Json) (w : World) : World :=
  with_res {| statusCode := status; sent := Some payload |} w.

(** The world after [req.user = p; next()] with the recording next stage. *)
Definition authorized (p : Payload) (w : World) : World :=
  {| res := res w; req_user := Some p; next_calls := S (next_calls w); db := db w |}.

(** The body of a successful login: the token it carries. *)
Definition token_of (w : World) : option string :=
  match sent (res w) with
  | Some (JObj (("token", JStr t) :: _)) => Some t
  | _ => None
  end.

(* ===================================================================== *)
(** ** JavaScript numbers, as far as the handlers use them *)
(* ===================================================================== *)

Module JsNumber.

(** A number that is [NaN] or an integer of magnitude at most 2^53, the
    range in which doubles are exact integers. *)
Inductive Num : Type :=
| NaN
| Int (z : Z).

Definition safe (z : Z) : bool := Z.abs z <=? 2 ^ 53.

(** The ASCII members of the white space [parseInt] skips. *)
Definition is_space (c : ascii) : bool :=
  let n := N_of_ascii c in
  ((9 <=? n)%N && (n <=? 13)%N) || (n =? 32)%N.

Fixpoint trim_start (s : string) : string :=
  match s with
  | EmptyString => EmptyString
  | String c rest => if is_space c then trim_start rest else s
  end.

Definition digit_value (radix : Z) (c : ascii) : option Z :=
  let n := Z.of_N (N_of_ascii c) in
  let v := if (48 <=? n) && (n <=? 57) then Some (n - 48)
           else if (97 <=? n) && (n <=? 102) then Some (n - 87)
           else if (65 <=? n) && (n <=? 70) then Some (n - 55)
           else None in
  match v with
  | Some d => if d <? radix then Some d else None
  | None => None
  end.

(** The value of the longest prefix of digits; [acc] is [None] until a
    digit has been read. *)
Fixpoint digits (radix : Z) (acc : option Z) (s : string) : option Z :=
  match s with
  | EmptyString => acc
  | String c rest =>
      match digit_value radix c with
      | Some d =>
          digits radix
            (Some (radix * match acc with Some a => a | None => 0 end + d)) rest
      | None => acc
      end
  end.

Definition sign_of (s : string) : Z * string :=
  match s with
  | String c rest =>
      if Ascii.eqb c "-" then (-1, rest)
      else if Ascii.eqb c "+" then (1, rest)
      else (1, s)
  | EmptyString => (1, s)
  end.

Definition radix_of (s : string) : Z * string :=
  match s with
  | String z (String x rest) =>
      if Ascii.eqb z "0" && (Ascii.eqb x "x" || Ascii.eqb x "X")
      then (16, rest) else (10, s)
  | _ => (10, s)
  end.

(** [parseInt(s)] without a radix: leading white space, a sign, an
    optional [0x], then the longest run of digits; [NaN] without a digit.
    The result is [None] where this model does not follow JavaScript: when
    the text after the ASCII white space starts with a character outside
    ASCII (it may be white space too), and when the magnitude exceeds
    2^53 (the double is then rounded). *)
Definition parseInt (s : string) : option Num :=
  let s1 := trim_start s in
  let outside := match s1 with
                 | String c _ => (128 <=? N_of_ascii c)%N
                 | EmptyString => false
                 end in
  if outside then None
  else
    let '(sign, s2) := sign_of s1 in
    let '(radix, s3) := radix_of s2 in
    match digits radix None s3 with
    | None => Some NaN
    | Some v => if safe v then Some (Int (sign * v)) else None
    end.

(** [String(v)] for a value that is [undefined] or a string. *)
Definition to_string (v : option string) : string :=
  match v with
  | None => "undefined"
  | Some s => s
  end.

(** [n || d] for a number [n]: [NaN] and zero are the falsy ones. *)
Definition or_default (n : Num) (d : Z) : Z :=
  match n with
  | NaN => d
  | Int z => if z =? 0 then d else z
  end.

(** [Math.ceil(a / b)] for integers, [b] not zero. *)
Definition ceil_div (a b : Z) : Z := - ((- a) / b).

Definition lower (c : ascii) : ascii :=
  let n := N_of_ascii c in
  if ((65 <=? n)%N && (n <=? 90)%N) then ascii_of_N (n + 32) else c.

(** [s.toLowerCase()] on the ASCII letters.  Characters outside ASCII are
    left as they are; none of them lowers to an ASCII letter other than
    [k], so a comparison of the result with a word of other letters comes
    out as in JavaScript. *)
Fixpoint toLowerCase (s : string) : string :=
  match s with
  | EmptyString => EmptyString
  | String c rest => String (lower c) (toLowerCase rest)
  end.

End JsNumber.

(* ===================================================================== *)
(** ** [src/controllers/course.controller.js], the other handlers *)
(* ===================================================================== *)

Module Courses.

(** [req.query], each parameter given at most once. *)
Record Query : Type := mkQuery {
  q_limit : option string;
  q_page : option string;
  q_sort : option string;
  q_sortBy : option string;
  q_teacherId : option string;
  q_populate : option string
}.

(** [req.params.id], [req.query] and [req.body]. *)
Record CourseReq : Type := mkCourseReq {
  params_id : string;
  query : Query;
  payload : Json
}.

Inductive Direction : Type := ASC | DESC.

(** [{ model, attributes }] *)
Record Include : Type := mkInclude {
  model : string;
  include_attributes : list string
}.

(** The options object of [db.Course.findAll]. *)
Record FindOptions : Type := mkFindOptions {
  limit : Z;
  offset : Z;
  order : string * Direction;
  where_teacherId : option string;
  include : list Include;
  attributes : option (list string)
}.

Definition teacher_include : Include :=
  {| model := "Teacher"; include_attributes := ["id"; "name"; "department"] |}.

(** [(req.query.populate || 'none').toLowerCase()] and the [include]
    array built from it. *)
Definition include_of (populate : option string) : list Include :=
  let populate := JsNumber.toLowerCase (Js.or_else populate "none") in
  if String.eqb populate "teacher" then [teacher_include] else [].

Definition sortable : list string := ["id"; "createdAt"; "updatedAt"; "teacherId"].

(** [sortable.includes(v) ? v : 'id'] *)
Definition sortBy_of (v : option string) : string :=
  match v with
  | Some s => if existsb (String.eqb s) sortable then s else "id"
  | None => "id"
  end.

(** [v === 'desc' ? 'DESC' : 'ASC'] *)
Definition sort_of (v : option string) : Direction :=
  match v with
  | Some s => if String.eqb s "desc" then DESC else ASC
  | None => ASC
  end.

(** What [getAllCourses] computes before it turns to the database: the
    page and the options of [findAll].  [None] where the numbers leave the
    range this model follows. *)
Definition plan (q : Query) : option (Z * FindOptions) :=
  match JsNumber.parseInt (JsNumber.to_string (q_limit q)),
        JsNumber.parseInt (JsNumber.to_string (q_page q)) with
  | Some l, Some p =>
      let limit := JsNumber.or_default l 10 in
      let page := JsNumber.or_default p 1 in
      let sort := sort_of (q_sort q) in
      let sortBy := sortBy_of (q_sortBy q) in
      let where_ := Js.if_falsy (q_teacherId q) None (fun t => Some t) in
      let include := include_of (q_populate q) in
      if JsNumber.safe (page - 1) && JsNumber.safe ((page - 1) * limit) then
        Some (page,
              {| limit := limit;
                 offset := (page - 1) * limit;
                 order := (sortBy, sort);
                 where_teacherId := where_;
                 include := include;
                 attributes :=
                   match include with
                   | [] => Some ["id"; "title"; "description"; "teacherId";
                                 "createdAt"; "updatedAt"]
                   | _ :: _ => None
                   end |})
      else None
  | _, _ => None
  end.

(** [{ error: err.message }] with status 500: the [catch] of every course
    handler. *)
Definition internal_error (err : JsError) : M unit :=
  Response.status 500 ;;
  Response.call "json" (JObj [("error", JStr (err_message err))]).

Section WithCourseOrm.

(** The calls into the ORM, each returning or rejecting.  [Course_count]
    gives the number of rows, an integer of magnitude below 2^53;
    [Course_update] gives the course after [course.update(body)]. *)
Variable Course_count : option string -> M Z.
Variable Course_findAll : FindOptions -> M Json.
Variable Course_findByPk : string -> option (list Include) -> M (option Json).
Variable Course_update : Json -> Json -> M Json.
Variable Course_destroy : Json -> M unit.

(** [getAllCourses(req, res)] *)
Definition getAllCourses (req : CourseReq) : option (M unit) :=
  match plan (query req) with
  | None => None
  | Some (page, options) =>
      Some
        (try_catch
           (total <- Course_count (where_teacherId options) ;;
            courses <- Course_findAll options ;;
            Response.call "json"
              (JObj [("meta",
                      JObj [("totalItems", JNum total);
                            ("page", JNum page);
                            ("totalPages",
                             JNum (JsNumber.ceil_div total (limit options)))]);
                     ("data", courses)]))
           internal_error)
  end.

(** [getCourseById(req, res)] *)
Definition getCourseById (req : CourseReq) : M unit :=
  try_catch
    (let id := params_id req in
     let include := include_of (q_populate (query req)) in
     course <- Course_findByPk id (Some include) ;;
     match course with
     | None => Response.status 404 ;; Response.call "json" (message "Not found")
     | Some course => Response.call "json" course
     end)
    internal_error.

(** [updateCourse(req, res)] *)
Definition updateCourse (req : CourseReq) : M unit :=
  try_catch
    (course <- Course_findByPk (params_id req) None ;;
     match course with
     | None => Response.status 404 ;; Response.call "json" (message "Not found")
     | Some course =>
         course <- Course_update course (payload req) ;;
         Response.call "json" course
     end)
    internal_error.

(** [deleteCourse(req, res)] *)
Definition deleteCourse (req : CourseReq) : M unit :=
  try_catch
    (course <- Course_findByPk (params_id req) None ;;
     match course with
     | None => Response.status 404 ;; Response.call "json" (message "Course not found")
     | Some course =>
         Course_destroy course ;;
         Response.status 200 ;;
         Response.call "json" (message "Course deleted successfully")
     end)
    internal_error.

End WithCourseOrm.

End Courses.

(* ===================================================================== *)
(** ** Express dispatch, [src/routes/auth.routes.js] and [src/index.js] *)
(* ===================================================================== *)

Module Express.

(** One middleware of a stack followed by the rest of the stack.  The
    [next] Express hands to the middleware enters the rest and returns:
    an error of the rest goes to Express, not back into the middleware.
    So the middleware runs with the recording next stage, and the rest
    runs afterwards exactly when [next] was called. *)
Definition layer (mw : M unit -> M unit) (rest : M unit) : M unit :=
  fun w =>
    match mw AuthMiddleware.next_stage w with
    | (Abrupt e, w1) => (Abrupt e, w1)
    | (Normal _, w1) =>
        if Nat.eqb (next_calls w1) (next_calls w) then (Normal tt, w1)
        else rest w1
    end.

(** A request as the stack sees it. *)
Record Incoming (B : Type) : Type := mkIncoming {
  method : string;
  url : string;
  request : Req B
}.
Arguments mkIncoming {B}.
Arguments method {B}.
Arguments url {B}.
Arguments request {B}.

End Express.

Module Server.

Section Wiring.

Context {B : Type}.

(** [const { name, email, password } = req.body] *)
Variable credentials : B -> AuthenController.AuthBody.

(** Express's path matching: [mounted prefix r] for [app.use(prefix, ...)],
    [routed verb path r] for a route of the [/auth] router. *)
Variable mounted : string -> Express.Incoming B -> bool.
Variable routed : string -> string -> Express.Incoming B -> bool.

(** Environment, clock and the salt [bcrypt.hash] draws. *)
Variables (env : Env) (now : Z) (salt : string).

(** [serveSwagger, setupSwagger], and everything mounted below the gate:
    the student, course and teacher routers and the welcome route. *)
Variable docs : Express.Incoming B -> M unit -> M unit.
Variable below_gate : Express.Incoming B -> M unit.

Definition auth_request (r : Express.Incoming B) : Req AuthenController.AuthBody :=
  {| authorization := authorization (Express.request r);
     body := credentials (body (Express.request r)) |}.

(** The router of [auth.routes.js]: the first matching route handles the
    request; with none, the request goes on. *)
Definition authRoutes (r : Express.Incoming B) (next : M unit) : M unit :=
  if routed "POST" "/register" r then AuthenController.register salt (auth_request r)
  else if routed "POST" "/login" r then AuthenController.login env now (auth_request r)
  else if routed "GET" "/users" r then
    Express.layer (AuthMiddleware.authenticate env now (Express.request r))
                  (AuthenController.getAllUsers (Express.request r))
  else next.

(** The request is for neither [/docs] nor a route of the [/auth] router:
    it arrives at [app.use(authenticate)]. *)
Definition reaches_gate (r : Express.Incoming B) : Prop :=
  mounted "/docs" r = false
  /\ (mounted "/auth" r = false
      \/ (routed "POST" "/register" r = false
          /\ routed "POST" "/login" r = false
          /\ routed "GET" "/users" r = false)).

(** The request is for the route [verb path] of the [/auth] router. *)
Definition reaches_auth_route (verb path : string) (r : Express.Incoming B) : Prop :=
  mounted "/docs" r = false
  /\ mounted "/auth" r = true
  /\ forall v p,
       In (v, p) [("POST", "/register"); ("POST", "/login"); ("GET", "/users")] ->
       routed v p r = (String.eqb v verb && String.eqb p path).

(** The stack of [index.js] from [app.use('/docs', ...)] on, for a request
    that [cors()] and [express.json()] have passed on. *)
Definition app (r : Express.Incoming B) : M unit :=
  let gate :=
    Express.layer (AuthMiddleware.authenticate env now (Express.request r))
                  (below_gate r) in
  let auth := if mounted "/auth" r then authRoutes r gate else gate in
  if mounted "/docs" r then docs r auth else auth.

End Wiring.

End Server.

(* ===================================================================== *)
(** * Properties *)
(* ===================================================================== *)

(** ** Splitting *)

Lemma lacks_cons (c x : ascii) (s : string) :
  Js.lacks c (String x s) = negb (Ascii.eqb x c) && Js.lacks c s.
Proof. reflexivity. Qed.

Section SplitFacts.

Variable sep : ascii.

Lemma split_not_nil (s : string) : Js.split sep s <> [].
Proof.
  destruct s as [|c rest]; simpl; [discriminate|].
  destruct (Ascii.eqb c sep); [discriminate|].
  destruct (Js.split sep rest); discriminate.
Qed.

(** A string without the separator is one word. *)
Lemma split_lacks (a : string) :
  Js.lacks sep a = true -> Js.split sep a = [a].
Proof.
  induction a as [|c a IH]; [reflexivity|].
  rewrite lacks_cons. intros H.
  apply andb_true_iff in H as [Hc Ha].
  apply negb_true_iff in Hc.
  cbn [Js.split]. rewrite Hc, (IH Ha). reflexivity.
Qed.

(** The first word ends at the first separator. *)
Lemma split_app (a b : string) :
  Js.lacks sep a = true ->
  Js.split sep (a ++ String sep b) = a :: Js.split sep b.
Proof.
  induction a as [|c a IH].
  - intros _. cbn. rewrite Ascii.eqb_refl. reflexivity.
  - rewrite lacks_cons. intros H.
    apply andb_true_iff in H as [Hc Ha].
    apply negb_true_iff in Hc.
    cbn [append Js.split]. rewrite Hc, (IH Ha). reflexivity.
Qed.

(** A character absent from every word, and different from the
    separator, is absent from the whole string. *)
Lemma lacks_split (c : ascii) (s : string) :
  Ascii.eqb sep c = false ->
  Forall (fun word => Js.lacks c word = true) (Js.split sep s) ->
  Js.lacks c s = true.
Proof.
  intros Hsep. induction s as [|x s IH]; [reflexivity|].
  cbn [Js.split]. rewrite lacks_cons.
  destruct (Ascii.eqb x sep) eqn:Hx; intros H.
  - apply Ascii.eqb_eq in Hx. subst x. rewrite Hsep.
    apply IH. now inversion H.
  - destruct (Js.split sep s) as [|word words] eqn:Hs.
    + now apply split_not_nil in Hs.
    + inversion H as [|? ? Hhead Htail]; subst.
      rewrite lacks_cons in Hhead.
      apply andb_true_iff in Hhead as [-> Hword].
      apply IH. now constructor.
Qed.

End SplitFacts.

Lemma all_chars_app (p : ascii -> bool) (a b : string) :
  Js.all_chars p (a ++ b) = Js.all_chars p a && Js.all_chars p b.
Proof.
  induction a as [|c a IH]; simpl; [reflexivity|].
  now rewrite IH, andb_assoc.
Qed.

Lemma all_chars_weaken (p q : ascii -> bool) (s : string) :
  (forall c, p c = true -> q c = true) ->
  Js.all_chars p s = true -> Js.all_chars q s = true.
Proof.
  intros Hpq. induction s as [|c s IH]; simpl; [reflexivity|].
  intros H. apply andb_true_iff in H as [Hc Hs].
  now rewrite (Hpq _ Hc), (IH Hs).
Qed.

Lemma lacks_app (c : ascii) (a b : string) :
  Js.lacks c (a ++ b) = Js.lacks c a && Js.lacks c b.
Proof. apply all_chars_app. Qed.

(** ** The codecs *)

Ltac each_ascii c :=
  destruct c as [[|] [|] [|] [|] [|] [|] [|] [|]].

Lemma field_char_not_sep (c : ascii) :
  Codec.field_char c = true ->
  Ascii.eqb c " " = false /\ Ascii.eqb c "." = false
  /\ Ascii.eqb c "_" = false /\ Ascii.eqb c "$" = false.
Proof. each_ascii c; vm_compute; intuition discriminate. Qed.

Lemma field_chars_lack (sep : ascii) (s : string) :
  (forall c, Codec.field_char c = true -> Ascii.eqb c sep = false) ->
  Js.all_chars Codec.field_char s = true -> Js.lacks sep s = true.
Proof.
  intros Hsep. apply all_chars_weaken.
  intros c Hc. now rewrite (Hsep c Hc).
Qed.

Lemma hex_chars (s : string) : Js.all_chars Codec.field_char (Codec.hex s) = true.
Proof.
  induction s as [|c s IH]; [reflexivity|].
  cbn [Codec.hex Js.all_chars]. rewrite IH, !andb_true_r.
  clear IH. each_ascii c; reflexivity.
Qed.

Lemma unhex_hex (s : string) : Codec.unhex (Codec.hex s) = Some s.
Proof.
  induction s as [|c s IH]; [reflexivity|].
  cbn [Codec.hex Codec.unhex]. rewrite IH. clear IH.
  each_ascii c; reflexivity.
Qed.

Lemma hex_inj (a b : string) : Codec.hex a = Codec.hex b -> a = b.
Proof.
  intros H. apply (f_equal Codec.unhex) in H.
  rewrite !unhex_hex in H. congruence.
Qed.

Lemma uint_chars (d : Decimal.uint) :
  Js.all_chars Codec.field_char (NilEmpty.string_of_uint d) = true.
Proof. induction d; simpl; auto. Qed.

Lemma int_chars (d : Decimal.int) :
  Js.all_chars Codec.field_char (NilEmpty.string_of_int d) = true.
Proof. destruct d; simpl; apply uint_chars. Qed.

Lemma dec_chars (z : Z) : Js.all_chars Codec.field_char (Codec.dec z) = true.
Proof. apply int_chars. Qed.

Lemma undec_dec (z : Z) : Codec.undec (Codec.dec z) = Some z.
Proof.
  unfold Codec.undec, Codec.dec.
  rewrite NilEmpty.isi. simpl. now rewrite DecimalZ.of_to.
Qed.

(** What parses as a number is made of field characters. *)
Lemma undec_chars (s : string) (z : Z) :
  Codec.undec s = Some z -> Js.all_chars Codec.field_char s = true.
Proof.
  unfold Codec.undec.
  destruct (NilEmpty.int_of_string s) as [d|] eqn:H; [|discriminate].
  intros _. apply NilEmpty.sis in H. subst s. apply int_chars.
Qed.

Lemma hex_value_char (c : ascii) (n : N) :
  Codec.hex_value c = Some n -> Codec.field_char c = true.
Proof. each_ascii c; vm_compute; congruence. Qed.

(** What decodes as hexadecimal is made of field characters. *)
Lemma unhex_chars (s : string) :
  (forall r, Codec.unhex s = Some r -> Js.all_chars Codec.field_char s = true)
  /\ (forall c r, Codec.unhex (String c s) = Some r ->
                  Js.all_chars Codec.field_char (String c s) = true).
Proof.
  induction s as [|lo s [IH0 IH1]]; split.
  - reflexivity.
  - intros c r H. discriminate.
  - intros r. apply IH1.
  - intros hi r. cbn [Codec.unhex].
    destruct (Codec.hex_value hi) as [h|] eqn:Hhi; [|discriminate].
    destruct (Codec.hex_value lo) as [l|] eqn:Hlo; [|discriminate].
    destruct (Codec.unhex s) as [r'|] eqn:Hs; [|discriminate].
    intros _. cbn [Js.all_chars].
    rewrite (hex_value_char _ _ Hhi), (hex_value_char _ _ Hlo).
    now rewrite (IH0 _ eq_refl).
Qed.

(** ** The token format *)

Lemma append_assoc (a b c : string) : (a ++ b) ++ c = a ++ (b ++ c).
Proof. induction a as [|x a IH]; simpl; congruence. Qed.

Lemma field_lacks_underscore (s : string) :
  Js.all_chars Codec.field_char s = true -> Js.lacks "_" s = true.
Proof. apply field_chars_lack. intros c Hc. apply (field_char_not_sep c Hc). Qed.

Lemma field_lacks_dot (s : string) :
  Js.all_chars Codec.field_char s = true -> Js.lacks "." s = true.
Proof. apply field_chars_lack. intros c Hc. apply (field_char_not_sep c Hc). Qed.

Lemma field_lacks_space (s : string) :
  Js.all_chars Codec.field_char s = true -> Js.lacks " " s = true.
Proof. apply field_chars_lack. intros c Hc. apply (field_char_not_sep c Hc). Qed.

Create HintDb token.
#[local] Hint Resolve hex_chars dec_chars : token.
#[local] Hint Resolve field_lacks_underscore field_lacks_dot field_lacks_space : token.

(** The payload segment splits back into its four fields. *)
Lemma split_payload_segment (p : Payload) :
  Js.split "_" (Jwt.payload_segment p)
  = [Codec.hex (email p); Codec.dec (id p); Codec.dec (iat p); Codec.dec (exp p)].
Proof.
  unfold Jwt.payload_segment.
  cbn [append].
  rewrite !split_app by auto with token.
  rewrite split_lacks by auto with token.
  reflexivity.
Qed.

Lemma decode_payload_segment (p : Payload) :
  Jwt.decode_payload (Jwt.payload_segment p) = Some p.
Proof.
  unfold Jwt.decode_payload.
  rewrite split_payload_segment, unhex_hex, !undec_dec.
  now destruct p.
Qed.

(** Neither the payload segment nor a tag contains [c], for [c] a dot or
    a space. *)
Lemma payload_segment_lacks (c : ascii) (p : Payload) :
  Ascii.eqb "_" c = false ->
  (forall s, Js.all_chars Codec.field_char s = true -> Js.lacks c s = true) ->
  Js.lacks c (Jwt.payload_segment p) = true.
Proof.
  intros Hc Hfield. apply (lacks_split "_"); [exact Hc|].
  rewrite split_payload_segment.
  repeat constructor; apply Hfield; auto with token.
Qed.

Lemma mac_lacks (c : ascii) (key input : string) :
  Ascii.eqb "_" c = false ->
  (forall s, Js.all_chars Codec.field_char s = true -> Js.lacks c s = true) ->
  Js.lacks c (Jwt.mac key input) = true.
Proof.
  intros Hc Hfield. unfold Jwt.mac.
  cbn [append].
  rewrite lacks_app, lacks_cons, Hc, !Hfield by auto with token.
  reflexivity.
Qed.

(** A tag names its key: tags over the same text under two keys differ. *)
Lemma mac_key_inj (k k' input input' : string) :
  Jwt.mac k input = Jwt.mac k' input' -> k = k'.
Proof.
  unfold Jwt.mac. cbn [append]. intros H.
  apply (f_equal (Js.split "_")) in H.
  rewrite !split_app in H by auto with token.
  apply hex_inj. congruence.
Qed.

Lemma split_encode (p : Payload) (k : string) :
  Js.split "." (Jwt.encode p k)
  = [Jwt.header_segment; Jwt.payload_segment p;
     Jwt.mac k (Jwt.header_segment ++ "." ++ Jwt.payload_segment p)].
Proof.
  unfold Jwt.encode. cbv zeta.
  rewrite append_assoc.
  cbn [append].
  rewrite split_app by reflexivity.
  rewrite split_app
    by (apply payload_segment_lacks; [reflexivity | auto with token]).
  rewrite split_lacks
    by (apply mac_lacks; [reflexivity | auto with token]).
  reflexivity.
Qed.

(** Verification of a freshly encoded token under any key: the signature
    decides first, the clock second. *)
Lemma verify_encode (p : Payload) (k k' : string) (now : Z) :
  Jwt.verify (Jwt.encode p k) k' now
  = if String.eqb k k' then
      if exp p <=? now then Abrupt (TokenExpiredError "jwt expired" (exp p))
      else Normal p
    else Abrupt (JsonWebTokenError "invalid signature").
Proof.
  unfold Jwt.verify.
  rewrite split_encode, decode_payload_segment, String.eqb_refl.
  cbn [negb].
  destruct (String.eqb_spec k k') as [->|Hk].
  - now rewrite String.eqb_refl.
  - destruct (String.eqb_spec
                (Jwt.mac k (Jwt.header_segment ++ "." ++ Jwt.payload_segment p))
                (Jwt.mac k' (Jwt.header_segment ++ "." ++ Jwt.payload_segment p)))
      as [Hmac|_]; [|reflexivity].
    now apply mac_key_inj in Hmac.
Qed.

Lemma encode_lacks_space (p : Payload) (k : string) :
  Js.lacks " " (Jwt.encode p k) = true.
Proof.
  apply (lacks_split "."); [reflexivity|].
  rewrite split_encode.
  repeat constructor.
  - apply payload_segment_lacks; [reflexivity | auto with token].
  - apply mac_lacks; [reflexivity | auto with token].
Qed.

Lemma encode_not_empty (p : Payload) (k : string) : Jwt.encode p k <> "".
Proof. discriminate. Qed.

(** What parses as a payload segment contains no space. *)
Lemma decode_payload_lacks_space (segment : string) (p : Payload) :
  Jwt.decode_payload segment = Some p -> Js.lacks " " segment = true.
Proof.
  unfold Jwt.decode_payload.
  destruct (Js.split "_" segment) as [|e [|i [|a [|x [|? ?]]]]] eqn:Hsplit;
    try discriminate.
  destruct (Codec.unhex e) eqn:He; [|discriminate].
  destruct (Codec.undec i) eqn:Hi; [|discriminate].
  destruct (Codec.undec a) eqn:Ha; [|discriminate].
  destruct (Codec.undec x) eqn:Hx; [|discriminate].
  intros _. apply (lacks_split "_"); [reflexivity|].
  rewrite Hsplit.
  repeat constructor; apply field_lacks_space.
  - exact (proj1 (unhex_chars e) _ He).
  - exact (undec_chars _ _ Hi).
  - exact (undec_chars _ _ Ha).
  - exact (undec_chars _ _ Hx).
Qed.

(** Whatever [jwt.verify] accepts is one non-empty word. *)
Lemma verify_accepts_one_word (tok k : string) (now : Z) (p : Payload) :
  Jwt.verify tok k now = Normal p ->
  Js.lacks " " tok = true /\ tok <> "".
Proof.
  unfold Jwt.verify.
  destruct (Js.split "." tok) as [|h [|seg [|s [|? ?]]]] eqn:Hsplit;
    try discriminate.
  destruct (Jwt.decode_payload seg) as [q|] eqn:Hseg; [|discriminate].
  destruct (String.eqb_spec h Jwt.header_segment) as [->|]; [|discriminate].
  destruct (String.eqb_spec
              s (Jwt.mac k (Jwt.header_segment ++ "." ++ seg))) as [->|];
    [|discriminate].
  intros _. split.
  - apply (lacks_split "."); [reflexivity|].
    rewrite Hsplit. repeat constructor.
    + now apply decode_payload_lacks_space with q.
    + apply mac_lacks; [reflexivity | auto with token].
  - intros ->. discriminate.
Qed.

(** ** The password hasher *)

Lemma field_lacks_dollar (s : string) :
  Js.all_chars Codec.field_char s = true -> Js.lacks "$" s = true.
Proof. apply field_chars_lack. intros c Hc. apply (field_char_not_sep c Hc). Qed.

(** [compare] accepts a hash exactly for the password it was made from,
    whatever the salt. *)
Lemma compare_hash (password other salt : string) :
  Bcrypt.compare other (Bcrypt.hash password 10 salt) = String.eqb password other.
Proof.
  unfold Bcrypt.compare, Bcrypt.hash.
  change (Codec.dec 10) with "10". cbn [append Js.split Ascii.eqb Bool.eqb].
  rewrite split_app by auto using field_lacks_dollar with token.
  rewrite split_lacks by auto using field_lacks_dollar with token.
  cbn [andb String.eqb Ascii.eqb Bool.eqb].
  destruct (String.eqb_spec password other) as [->|Hne].
  - apply String.eqb_refl.
  - apply String.eqb_neq. intros H. now apply hex_inj in H.
Qed.

(** ** The two secrets *)

Lemma or_else_not_empty (v : option string) (d : string) :
  d <> "" -> Js.or_else v d <> "".
Proof.
  intros Hd. destruct v as [s|]; simpl; [|exact Hd].
  destruct (String.eqb_spec s ""); assumption.
Qed.

Lemma controller_secret_not_empty (env : Env) : AuthenController.SECRET env <> "".
Proof. apply or_else_not_empty. discriminate. Qed.

Lemma middleware_secret_not_empty (env : Env) : AuthMiddleware.SECRET env <> "".
Proof. apply or_else_not_empty. discriminate. Qed.

(** With [JWT_SECRET] set to a non-empty value both modules use it. *)
Lemma secrets_agree_when_configured (s : string) :
  s <> "" ->
  AuthenController.SECRET {| JWT_SECRET := Some s |} = s
  /\ AuthMiddleware.SECRET {| JWT_SECRET := Some s |} = s.
Proof.
  intros Hs. unfold AuthenController.SECRET, AuthMiddleware.SECRET. simpl.
  apply String.eqb_neq in Hs. now rewrite Hs.
Qed.

(** [login]'s call of [jwt.sign] returns: the secret is never empty and
    ["1h"] is 3600 seconds. *)
Lemma sign_one_hour (c : Jwt.Claims) (k : string) (T : Z) :
  k <> "" ->
  Jwt.sign c k "1h" T
  = Normal (Jwt.encode {| id := Jwt.claim_id c; email := Jwt.claim_email c;
                          iat := T; exp := T + 3600 |} k).
Proof.
  intros Hk. unfold Jwt.sign.
  apply String.eqb_neq in Hk. rewrite Hk.
  change (Jwt.timespan "1h") with (Some (1 * 3600)).
  cbv iota. now rewrite Z.mul_1_l.
Qed.

(** ** The middleware, branch by branch *)

Section Middleware.

Variables (env : Env) (now : Z) (next : M unit) (w : World).

(** Once a non-empty header yields a non-empty second word, the
    middleware is the guarded verification of that word. *)
Lemma authenticate_verifying {B : Type} (req : Req B) (header tok : string) :
  authorization req = Some header ->
  header <> "" ->
  Js.index (Js.split " " header) 1 = Some tok ->
  tok <> "" ->
  AuthMiddleware.authenticate env now req next w
  = try_catch
      (decoded <- lift (Jwt.verify tok (AuthMiddleware.SECRET env) now) ;;
       AuthMiddleware.set_user decoded ;;
       next)
      (fun _ => Response.status 401 ;;
                Response.call "json" (message "Invalid token")) w.
Proof.
  intros Hreq Hheader Htok Hne.
  unfold AuthMiddleware.authenticate. rewrite Hreq. cbn [Js.if_falsy].
  apply String.eqb_neq in Hheader. rewrite Hheader.
  rewrite Htok. cbn [Js.if_falsy].
  apply String.eqb_neq in Hne. now rewrite Hne.
Qed.

(** Header [scheme ++ " " ++ tok]: the second word is [tok]. *)
Lemma second_word (scheme tok : string) :
  Js.lacks " " scheme = true ->
  Js.lacks " " tok = true ->
  Js.index (Js.split " " (scheme ++ " " ++ tok)) 1 = Some tok.
Proof.
  intros Hscheme Htok. cbn [append].
  now rewrite split_app, split_lacks.
Qed.

Lemma scheme_header_not_empty (scheme tok : string) : scheme ++ " " ++ tok <> "".
Proof. destruct scheme; discriminate. Qed.

(** The Rejected branch. *)
Lemma authenticate_rejects (header tok : string) (e : JsError) :
  header <> "" ->
  Js.index (Js.split " " header) 1 = Some tok ->
  tok <> "" ->
  Jwt.verify tok (AuthMiddleware.SECRET env) now = Abrupt e ->
  AuthMiddleware.authenticate env now (bare (Some header)) next w
  = (Normal tt, respond 401 (message "Invalid token") w).
Proof.
  intros Hheader Htok Hne Hverify.
  rewrite (authenticate_verifying (bare (Some header)) header tok) by auto.
  unfold try_catch, bind, lift. rewrite Hverify. reflexivity.
Qed.

(** The Authorized branch, up to the call of the next stage. *)
Lemma authenticate_accepts (header tok : string) (p : Payload) :
  header <> "" ->
  Js.index (Js.split " " header) 1 = Some tok ->
  tok <> "" ->
  Jwt.verify tok (AuthMiddleware.SECRET env) now = Normal p ->
  AuthMiddleware.authenticate env now (bare (Some header)) next w
  = try_catch next
      (fun _ => Response.status 401 ;;
                Response.call "json" (message "Invalid token"))
      (with_user p w).
Proof.
  intros Hheader Htok Hne Hverify.
  rewrite (authenticate_verifying (bare (Some header)) header tok) by auto.
  unfold try_catch, bind, lift. rewrite Hverify. reflexivity.
Qed.

End Middleware.

(** ** Claims about the middleware *)

(** C8: a request without an [Authorization] header is answered with 401
    and the body [{message: "No token provided"}]; the handling ends there:
    the result is the same whatever the next stage is, so the next stage
    is not entered, and [req.user] is left alone. *)
Theorem no_header_is_no_token_provided
    {B : Type} (env : Env) (now : Z) (b : B) (next : M unit) (w : World) :
  AuthMiddleware.authenticate env now {| authorization := None; body := b |} next w
  = (Normal tt, respond 401 (message "No token provided") w).
Proof. reflexivity. Qed.

(** C3, as the code behaves: with the header ["Bearer"] (and likewise
    ["Bearer "], whose token segment is empty) the middleware sets status
    401 and then calls the undefined method [jjson]: a [TypeError] leaves
    the middleware, and no body [{message: "Token missing"}] is sent. *)
Theorem token_missing_branch_throws
    (env : Env) (now : Z) (next : M unit) (w : World) :
  let thrown := Abrupt (TypeError "res.status(...).jjson is not a function") in
  let left := with_res {| statusCode := 401; sent := sent (res w) |} w in
  AuthMiddleware.authenticate env now (bare (Some "Bearer")) next w = (thrown, left)
  /\ AuthMiddleware.authenticate env now (bare (Some "Bearer ")) next w = (thrown, left).
Proof. split; reflexivity. Qed.

(** C7: when verification of the token segment fails, for whatever reason
    [e], the middleware answers 401 [{message: "Invalid token"}]; the
    answer does not depend on [e], nor on the next stage, which is not
    entered. *)
Theorem verification_failure_is_invalid_token
    (env : Env) (now : Z) (header tok : string) (e : JsError)
    (next : M unit) (w : World) :
  header <> "" ->
  Js.index (Js.split " " header) 1 = Some tok ->
  tok <> "" ->
  Jwt.verify tok (AuthMiddleware.SECRET env) now = Abrupt e ->
  AuthMiddleware.authenticate env now (bare (Some header)) next w
  = (Normal tt, respond 401 (message "Invalid token") w).
Proof.
  intros Hheader Htok Hne Hverify.
  now apply authenticate_rejects with tok e.
Qed.

Lemma verification_failure_is_invalid_token_witness :
  let env := {| JWT_SECRET := Some "s3cret" |} in
  let w := arrive {| online := true; users := []; next_id := 1 |} in
  AuthMiddleware.authenticate env 100 (bare (Some "Bearer not.a.token"))
    AuthMiddleware.next_stage w
  = (Normal tt, respond 401 (message "Invalid token") w).
Proof.
  intros env w.
  apply (verification_failure_is_invalid_token
           env 100 "Bearer not.a.token" "not.a.token"
           (JsonWebTokenError "invalid token")).
  - discriminate.
  - reflexivity.
  - discriminate.
  - vm_compute. reflexivity.
Defined.

(** Expired, tampered and malformed tokens get the same answer. *)
Example invalid_token_reasons_collapse :
  let env := {| JWT_SECRET := Some "s3cret" |} in
  let p := {| id := 7; email := "a@b.c"; iat := 1000; exp := 4600 |} in
  let w := arrive {| online := true; users := []; next_id := 1 |} in
  let answer header :=
    AuthMiddleware.authenticate env 5000 (bare (Some header))
      AuthMiddleware.next_stage w in
  Jwt.verify (Jwt.encode p "s3cret") "s3cret" 5000
  = Abrupt (TokenExpiredError "jwt expired" 4600)
  /\ Jwt.verify (Jwt.encode p "forged") "s3cret" 5000
     = Abrupt (JsonWebTokenError "invalid signature")
  /\ Jwt.verify "garbage" "s3cret" 5000 = Abrupt (JsonWebTokenError "jwt malformed")
  /\ answer ("Bearer " ++ Jwt.encode p "s3cret")
     = (Normal tt, respond 401 (message "Invalid token") w)
  /\ answer ("Bearer " ++ Jwt.encode p "forged")
     = (Normal tt, respond 401 (message "Invalid token") w)
  /\ answer "Bearer garbage"
     = (Normal tt, respond 401 (message "Invalid token") w).
Proof. repeat split; vm_compute; reflexivity. Qed.

(** C10: the scheme word is never inspected.  For a header
    [scheme ++ " " ++ tok] whose token verifies under the middleware's
    secret, the request is authorized (claims attached, next stage entered)
    for every scheme word, exactly as for ["Bearer"]. *)
Theorem scheme_word_is_not_checked
    (env : Env) (now : Z) (scheme tok : string) (p : Payload) (w : World) :
  Js.lacks " " scheme = true ->
  Jwt.verify tok (AuthMiddleware.SECRET env) now = Normal p ->
  AuthMiddleware.authenticate env now (bare (Some (scheme ++ " " ++ tok)))
    AuthMiddleware.next_stage w
  = (Normal tt, authorized p w)
  /\ AuthMiddleware.authenticate env now (bare (Some (scheme ++ " " ++ tok)))
       AuthMiddleware.next_stage w
     = AuthMiddleware.authenticate env now (bare (Some ("Bearer " ++ tok)))
         AuthMiddleware.next_stage w.
Proof.
  intros Hscheme Hverify.
  destruct (verify_accepts_one_word _ _ _ _ Hverify) as [Hword Hne].
  assert (Hany : forall s, Js.lacks " " s = true ->
            AuthMiddleware.authenticate env now (bare (Some (s ++ " " ++ tok)))
              AuthMiddleware.next_stage w
            = (Normal tt, authorized p w)).
  { intros s Hs.
    rewrite (authenticate_accepts env now AuthMiddleware.next_stage w
               (s ++ " " ++ tok) tok p);
      auto using second_word, scheme_header_not_empty. }
  split.
  - now apply Hany.
  - rewrite (Hany scheme Hscheme). symmetry. now apply (Hany "Bearer").
Qed.

Lemma scheme_word_is_not_checked_witness :
  let env := {| JWT_SECRET := None |} in
  let p := {| id := 7; email := "a@b.c"; iat := 1000; exp := 4600 |} in
  let tok := Jwt.encode p "chaewon" in
  let w := arrive {| online := true; users := []; next_id := 1 |} in
  AuthMiddleware.authenticate env 1001 (bare (Some ("Basic" ++ " " ++ tok)))
    AuthMiddleware.next_stage w
  = (Normal tt, authorized p w).
Proof.
  intros env p tok w.
  apply (scheme_word_is_not_checked env 1001 "Basic" tok p w).
  - reflexivity.
  - vm_compute. reflexivity.
Defined.

(** C1: with [JWT_SECRET] absent the controller signs with ["IamJack21"]
    and the middleware verifies with ["chaewon"]; so for every claims
    payload [{id, email}] and every clock, the token [login] issues is
    refused by the middleware with 401 [{message: "Invalid token"}] (the
    Rejected branch), whatever the next stage. *)
Theorem default_secrets_reject_login_token
    (env : Env) (c : Jwt.Claims) (T now : Z) (next : M unit) (w : World) :
  JWT_SECRET env = None ->
  AuthenController.SECRET env = "IamJack21"
  /\ AuthMiddleware.SECRET env = "chaewon"
  /\ exists tok,
       Jwt.sign c (AuthenController.SECRET env) "1h" T = Normal tok
       /\ Jwt.verify tok (AuthMiddleware.SECRET env) now
          = Abrupt (JsonWebTokenError "invalid signature")
       /\ AuthMiddleware.authenticate env now (bare (Some ("Bearer " ++ tok))) next w
          = (Normal tt, respond 401 (message "Invalid token") w).
Proof.
  intros Henv.
  assert (Hc : AuthenController.SECRET env = "IamJack21")
    by (unfold AuthenController.SECRET; now rewrite Henv).
  assert (Hm : AuthMiddleware.SECRET env = "chaewon")
    by (unfold AuthMiddleware.SECRET; now rewrite Henv).
  repeat split; try assumption.
  rewrite Hc, sign_one_hour by discriminate.
  eexists. split; [reflexivity|].
  assert (Hverify : forall t k, k = "chaewon" ->
            Jwt.verify (Jwt.encode t "IamJack21") k now
            = Abrupt (JsonWebTokenError "invalid signature")).
  { intros t k ->. now rewrite verify_encode. }
  split; [now apply Hverify|].
  eapply authenticate_rejects.
  - discriminate.
  - apply (second_word "Bearer"); [reflexivity | apply encode_lacks_space].
  - apply encode_not_empty.
  - now apply Hverify.
Qed.

Lemma default_secrets_reject_login_token_witness :
  let env := {| JWT_SECRET := None |} in
  let c := {| Jwt.claim_id := 1; Jwt.claim_email := "RaFat@gmail.com" |} in
  let w := arrive {| online := true; users := []; next_id := 1 |} in
  exists tok,
    Jwt.sign c (AuthenController.SECRET env) "1h" 1000 = Normal tok
    /\ AuthMiddleware.authenticate env 1001 (bare (Some ("Bearer " ++ tok)))
         AuthMiddleware.next_stage w
       = (Normal tt, respond 401 (message "Invalid token") w).
Proof.
  intros env c w.
  destruct (default_secrets_reject_login_token
              env c 1000 1001 AuthMiddleware.next_stage w eq_refl)
    as (_ & _ & tok & Hsign & _ & Hreject).
  exists tok. split; assumption.
Defined.

(** The middleware never consults the credential store: replacing the
    store changes nothing but the store. *)
Lemma authenticate_ignores_store
    (env : Env) (now : Z) (header : option string) (d : Db) (w : World) :
  AuthMiddleware.authenticate env now (bare header) AuthMiddleware.next_stage
    (with_db d w)
  = let r := AuthMiddleware.authenticate env now (bare header)
               AuthMiddleware.next_stage w in
    (fst r, with_db d (snd r)).
Proof.
  unfold AuthMiddleware.authenticate. cbn [authorization bare].
  destruct header as [h|]; [|reflexivity].
  cbn [Js.if_falsy]. destruct (String.eqb h ""); [reflexivity|].
  destruct (Js.index (Js.split " " h) 1) as [tok|]; [|reflexivity].
  cbn [Js.if_falsy]. destruct (String.eqb tok ""); [reflexivity|].
  unfold try_catch, bind, lift.
  destruct (Jwt.verify tok (AuthMiddleware.SECRET env) now); reflexivity.
Qed.

(** ** Claims about the token *)

(** C9, as the code behaves when [JWT_SECRET] is not set: a user registers
    and logs in at clock 1000; the token is issued with a validity of one
    hour ([iat = 1000], [exp = 4600], as verification under the
    controller's secret shows), yet the middleware answers 401
    [{message: "Invalid token"}] to it at every clock, the clocks before
    4600 included: its verification never succeeds before [T + 1h]. *)
Theorem fresh_login_token_refused_before_expiry :
  let env := {| JWT_SECRET := None |} in
  let req := {| authorization := None;
                body := AuthenController.mkAuthBody
                          "Ra Fat" "RaFat@gmail.com" "RaFat21" |} in
  let registered :=
    snd (AuthenController.register "salt" req
           (arrive {| online := true; users := []; next_id := 1 |})) in
  let logged_in :=
    snd (AuthenController.login env 1000 req (arrive (db registered))) in
  exists tok,
    token_of logged_in = Some tok
    /\ Jwt.verify tok (AuthenController.SECRET env) 1000
       = Normal {| id := 1; email := "RaFat@gmail.com";
                   iat := 1000; exp := 1000 + 3600 |}
    /\ (forall (t : Z) (w : World),
          AuthMiddleware.authenticate env t (bare (Some ("Bearer " ++ tok)))
            AuthMiddleware.next_stage w
          = (Normal tt, respond 401 (message "Invalid token") w))
    /\ AuthMiddleware.authenticate env 1001 (bare (Some ("Bearer " ++ tok)))
         AuthMiddleware.next_stage (arrive (db logged_in))
       = (Normal tt,
          respond 401 (message "Invalid token") (arrive (db logged_in))).
Proof.
  cbv zeta. eexists. split; [vm_compute; reflexivity|].
  split; [vm_compute; reflexivity|].
  assert (Hall : forall (t : Z) (w : World),
            AuthMiddleware.authenticate {| JWT_SECRET := None |} t
              (bare (Some ("Bearer "
                 ++ Jwt.encode {| id := 1; email := "RaFat@gmail.com";
                                  iat := 1000; exp := 4600 |} "IamJack21")))
              AuthMiddleware.next_stage w
            = (Normal tt, respond 401 (message "Invalid token") w)).
  { intros t w.
    eapply authenticate_rejects.
    - discriminate.
    - apply (second_word "Bearer"); [reflexivity | apply encode_lacks_space].
    - apply encode_not_empty.
    - rewrite verify_encode. reflexivity. }
  split; [exact Hall | apply Hall].
Qed.

(** With [JWT_SECRET] configured, the middleware lets a token of [login]
    through until it expires. *)
Lemma configured_secret_accepts_login_token
    (s : string) (c : Jwt.Claims) (T now : Z) (w : World) :
  s <> "" -> now < T + 3600 ->
  let env := {| JWT_SECRET := Some s |} in
  let p := {| id := Jwt.claim_id c; email := Jwt.claim_email c;
              iat := T; exp := T + 3600 |} in
  exists tok,
    Jwt.sign c (AuthenController.SECRET env) "1h" T = Normal tok
    /\ AuthMiddleware.authenticate env now (bare (Some ("Bearer " ++ tok)))
         AuthMiddleware.next_stage w
       = (Normal tt, authorized p w).
Proof.
  intros Hs Hnow env p.
  destruct (secrets_agree_when_configured s Hs) as [Hc Hm].
  fold env in Hc, Hm. rewrite Hc.
  exists (Jwt.encode p s). split; [now apply sign_one_hour|].
  rewrite (authenticate_accepts env now AuthMiddleware.next_stage w
             ("Bearer " ++ Jwt.encode p s) (Jwt.encode p s) p).
  - reflexivity.
  - discriminate.
  - apply (second_word "Bearer"); [reflexivity | apply encode_lacks_space].
  - apply encode_not_empty.
  - rewrite Hm, verify_encode, String.eqb_refl. cbn [exp p].
    destruct (Z.leb_spec (T + 3600) now); [lia | reflexivity].
Qed.

(** C2, as the code behaves when [JWT_SECRET] is not set: a user registers
    and logs in (200, with a token that verifies under the controller's
    secret and carries the user's claims), and the middleware refuses that
    very token on the next request with 401 [{message: "Invalid token"}],
    because it verifies with its own default secret. *)
Theorem login_token_refused_under_default_secrets :
  let env := {| JWT_SECRET := None |} in
  let req := {| authorization := None;
                body := AuthenController.mkAuthBody
                          "Ra Fat" "RaFat@gmail.com" "RaFat21" |} in
  let registered :=
    snd (AuthenController.register "salt" req
           (arrive {| online := true; users := []; next_id := 1 |})) in
  let logged_in :=
    snd (AuthenController.login env 1000 req (arrive (db registered))) in
  statusCode (res registered) = 201
  /\ statusCode (res logged_in) = 200
  /\ exists tok,
       token_of logged_in = Some tok
       /\ Jwt.verify tok (AuthenController.SECRET env) 1001
          = Normal {| id := 1; email := "RaFat@gmail.com";
                      iat := 1000; exp := 4600 |}
       /\ AuthMiddleware.authenticate env 1001 (bare (Some ("Bearer " ++ tok)))
            AuthMiddleware.next_stage (arrive (db logged_in))
          = (Normal tt,
             respond 401 (message "Invalid token") (arrive (db logged_in))).
Proof.
  cbv zeta. split; [reflexivity|]. split; [reflexivity|].
  eexists. split; [vm_compute; reflexivity|].
  split; vm_compute; reflexivity.
Qed.

(** ** Claims about the handlers *)

(** [createCourse] ends normally whatever the ORM call does. *)
Lemma createCourse_never_throws
    (Course_create : Json -> M Json) (req : Req Json) (w : World) :
  exists w', CourseController.createCourse Course_create req w = (Normal tt, w').
Proof.
  unfold CourseController.createCourse, try_catch, bind.
  destruct (Course_create (body req) w) as [[course|e] w1]; eexists; reflexivity.
Qed.

(** C4, as the code behaves when the store cannot be reached: [register]
    and [login] have no [try]/[catch], so the store's error leaves the
    handler and no response is written; the sibling [createCourse] catches
    the same error and answers 500 with [{error: message}]. *)
Theorem store_failure_escapes_auth_handlers
    (env : Env) (now : Z) (salt : string)
    (req : Req AuthenController.AuthBody) (creq : Req Json)
    (rows : list UserRow) (n : Z) :
  let w := arrive {| online := false; users := rows; next_id := n |} in
  AuthenController.register salt req w = (Abrupt User.unreachable, w)
  /\ AuthenController.login env now req w = (Abrupt User.unreachable, w)
  /\ sent (res w) = None
  /\ CourseController.createCourse (fun _ => throw User.unreachable) creq w
     = (Normal tt,
        respond 500 (JObj [("error", JStr "connect ECONNREFUSED")]) w).
Proof. repeat split. Qed.

(** An answered lookup is a lookup in the rows of a reachable store. *)
Lemma findOne_answer (mail : string) (w : World) (r : option UserRow) (w' : World) :
  User.findOne mail w = (Normal r, w') ->
  online (db w) = true /\ r = User.lookup mail (users (db w)) /\ w' = w.
Proof.
  unfold User.findOne. destruct (online (db w)); [|discriminate].
  intros [= <- <-]. auto.
Qed.

Lemma lookup_app (mail : string) (rows more : list UserRow) :
  User.lookup mail (rows ++ more)
  = match User.lookup mail rows with
    | Some u => Some u
    | None => User.lookup mail more
    end.
Proof.
  induction rows as [|u rows IH]; [reflexivity|]. simpl.
  destruct (String.eqb (user_email u) mail); [reflexivity | exact IH].
Qed.

(** C5: the three outcomes of [login] on a request arriving at store [d].
    No user under the email: 404 [{message: "User not found"}].  A user
    whose stored hash does not verify the password: 401
    [{message: "Invalid email or password"}].  A user whose hash verifies:
    200 with a token issued at this clock for [{id, email}] and the
    public fields [{id, email}] only. *)
Theorem login_outcomes
    (env : Env) (now : Z) (req : Req AuthenController.AuthBody) (d : Db) :
  let mail := AuthenController.body_email (body req) in
  let password := AuthenController.body_password (body req) in
  let w := arrive d in
  (User.findOne mail w = (Normal None, w) ->
     AuthenController.login env now req w
     = (Normal tt, respond 404 (message "User not found") w))
  /\ (forall u, User.findOne mail w = (Normal (Some u), w) ->
        Bcrypt.compare password (user_password u) = false ->
        AuthenController.login env now req w
        = (Normal tt, respond 401 (message "Invalid email or password") w))
  /\ (forall u, User.findOne mail w = (Normal (Some u), w) ->
        Bcrypt.compare password (user_password u) = true ->
        exists token,
          Jwt.sign {| Jwt.claim_id := user_id u; Jwt.claim_email := user_email u |}
                   (AuthenController.SECRET env) "1h" now = Normal token
          /\ Jwt.verify token (AuthenController.SECRET env) now
             = Normal {| id := user_id u; email := user_email u;
                         iat := now; exp := now + 3600 |}
          /\ AuthenController.login env now req w
             = (Normal tt,
                respond 200
                  (JObj [("token", JStr token);
                         ("user", JObj [("id", JNum (user_id u));
                                        ("email", JStr (user_email u))])])
                  w)).
Proof.
  intros mail password w. unfold AuthenController.login, bind.
  fold mail password. repeat split.
  - intros ->. reflexivity.
  - intros u -> Hcmp. rewrite Hcmp. reflexivity.
  - intros u -> Hcmp. rewrite Hcmp. cbn [negb].
    pose proof (controller_secret_not_empty env) as Hk.
    eexists. split; [now apply sign_one_hour|]. split.
    + rewrite verify_encode, String.eqb_refl. cbn [exp].
      destruct (Z.leb_spec (now + 3600) now); [lia | reflexivity].
    + unfold lift. now rewrite sign_one_hour.
Qed.

Lemma login_outcomes_witness :
  let env := {| JWT_SECRET := Some "s3cret" |} in
  let stored := {| user_id := 1; user_name := "Ra Fat";
                   user_email := "RaFat@gmail.com";
                   user_password := Bcrypt.hash "RaFat21" 10 "salt" |} in
  let d := {| online := true; users := [stored]; next_id := 2 |} in
  let ask mail password :=
    {| authorization := None;
       body := AuthenController.mkAuthBody "" mail password |} in
  AuthenController.login env 1000 (ask "nobody@gmail.com" "RaFat21") (arrive d)
  = (Normal tt, respond 404 (message "User not found") (arrive d))
  /\ AuthenController.login env 1000 (ask "RaFat@gmail.com" "wrong") (arrive d)
     = (Normal tt, respond 401 (message "Invalid email or password") (arrive d))
  /\ exists token,
       AuthenController.login env 1000 (ask "RaFat@gmail.com" "RaFat21") (arrive d)
       = (Normal tt,
          respond 200
            (JObj [("token", JStr token);
                   ("user", JObj [("id", JNum 1); ("email", JStr "RaFat@gmail.com")])])
            (arrive d)).
Proof.
  intros env stored d ask. split; [|split].
  - apply (login_outcomes env 1000 (ask "nobody@gmail.com" "RaFat21") d).
    reflexivity.
  - apply (login_outcomes env 1000 (ask "RaFat@gmail.com" "wrong") d) with stored;
      reflexivity.
  - destruct (login_outcomes env 1000 (ask "RaFat@gmail.com" "RaFat21") d)
      as (_ & _ & Hok).
    destruct (Hok stored eq_refl eq_refl) as (token & _ & _ & Hlogin).
    exists token. exact Hlogin.
Defined.

(** C6: the outcomes of [register] on a request arriving at store [d].
    A user under the email: 400 [{message: "Email already exists"}] and
    the store as it was.  None: the row [{id, name, email, hash}] is
    appended with the hash of the password, and the answer is 201 with
    [{message, user: {id, email}}], the hash being no part of it.  Hence a
    second registration of the email, after a first that succeeded, is
    answered 400. *)
Theorem register_outcomes
    (salt : string) (req : Req AuthenController.AuthBody) (d : Db) :
  let name := AuthenController.body_name (body req) in
  let mail := AuthenController.body_email (body req) in
  let password := AuthenController.body_password (body req) in
  let w := arrive d in
  let row := {| user_id := next_id d; user_name := name; user_email := mail;
                user_password := Bcrypt.hash password 10 salt |} in
  let created := {| online := true; users := users d ++ [row];
                    next_id := next_id d + 1 |} in
  (forall u, User.findOne mail w = (Normal (Some u), w) ->
     AuthenController.register salt req w
     = (Normal tt, respond 400 (message "Email already exists") w)
     /\ db (respond 400 (message "Email already exists") w) = d)
  /\ (User.findOne mail w = (Normal None, w) ->
        AuthenController.register salt req w
        = (Normal tt,
           respond 201
             (JObj [("message", JStr "User registered");
                    ("user", JObj [("id", JNum (next_id d)); ("email", JStr mail)])])
             (arrive created)))
  /\ (User.findOne mail w = (Normal None, w) ->
        forall (salt' : string) (again : Req AuthenController.AuthBody),
          AuthenController.body_email (body again) = mail ->
          AuthenController.register salt' again (arrive created)
          = (Normal tt,
             respond 400 (message "Email already exists") (arrive created))).
Proof.
  intros name mail password w row created. split; [|split].
  - intros u Hfind. unfold AuthenController.register, bind.
    fold mail. rewrite Hfind. split; reflexivity.
  - intros Hfind. unfold AuthenController.register, bind.
    fold mail name password. rewrite Hfind.
    apply findOne_answer in Hfind as (Honline & Hnone & _).
    unfold User.create. cbn [db w arrive] in *.
    rewrite Honline, <- Hnone. reflexivity.
  - intros Hfind salt' again Hagain.
    apply findOne_answer in Hfind as (_ & Hnone & _). cbn [db w arrive] in Hnone.
    unfold AuthenController.register, bind, User.findOne.
    rewrite Hagain. cbn [db arrive online created users].
    rewrite lookup_app, <- Hnone. cbn [User.lookup user_email row].
    rewrite String.eqb_refl. reflexivity.
Qed.

Lemma register_outcomes_witness :
  let fresh := {| online := true; users := []; next_id := 1 |} in
  let req := {| authorization := None;
                body := AuthenController.mkAuthBody
                          "Ra Fat" "RaFat@gmail.com" "RaFat21" |} in
  let row := {| user_id := 1; user_name := "Ra Fat";
                user_email := "RaFat@gmail.com";
                user_password := Bcrypt.hash "RaFat21" 10 "salt" |} in
  let created := {| online := true; users := [row]; next_id := 2 |} in
  AuthenController.register "salt" req (arrive fresh)
  = (Normal tt,
     respond 201
       (JObj [("message", JStr "User registered");
              ("user", JObj [("id", JNum 1); ("email", JStr "RaFat@gmail.com")])])
       (arrive created))
  /\ AuthenController.register "pepper" req (arrive created)
     = (Normal tt, respond 400 (message "Email already exists") (arrive created))
  /\ db (respond 400 (message "Email already exists") (arrive created)) = created.
Proof.
  intros fresh req row created. split; [|split].
  - apply (register_outcomes "salt" req fresh). reflexivity.
  - apply (register_outcomes "salt" req fresh); reflexivity.
  - apply (register_outcomes "pepper" req created) with row. reflexivity.
Defined.

(* ===================================================================== *)
(** * Further properties of the code *)
(* ===================================================================== *)

(** ** The secrets *)

(** The controller and the middleware use the same secret exactly when
    [JWT_SECRET] is set to a non-empty string: an empty value counts as
    absent in both, and the two fallbacks differ. *)
Theorem secrets_agree_iff_configured (env : Env) :
  AuthenController.SECRET env = AuthMiddleware.SECRET env
  <-> exists s, JWT_SECRET env = Some s /\ s <> "".
Proof.
  unfold AuthenController.SECRET, AuthMiddleware.SECRET, Js.or_else.
  destruct (JWT_SECRET env) as [s|]; [destruct (String.eqb_spec s "")|]; split.
  - discriminate.
  - intros (s' & [= <-] & Hne). contradiction.
  - intros _. now exists s.
  - reflexivity.
  - discriminate.
  - intros (s' & [=] & _).
Qed.

Lemma secrets_agree_iff_configured_witness :
  AuthenController.SECRET {| JWT_SECRET := Some "s3cret" |}
  = AuthMiddleware.SECRET {| JWT_SECRET := Some "s3cret" |}
  /\ AuthenController.SECRET {| JWT_SECRET := Some "" |}
     <> AuthMiddleware.SECRET {| JWT_SECRET := Some "" |}.
Proof.
  split.
  - apply (secrets_agree_iff_configured {| JWT_SECRET := Some "s3cret" |}).
    exists "s3cret". split; [reflexivity | discriminate].
  - intros H.
    apply (secrets_agree_iff_configured {| JWT_SECRET := Some "" |}) in H.
    destruct H as (s & [= <-] & Hne). now apply Hne.
Defined.

(** ** Edges of the middleware *)

(** A non-empty header without a space has no second word: the middleware
    ends in the [jjson] call, so a token sent without a scheme word is
    never verified, valid or not. *)
Theorem header_without_space_throws
    (env : Env) (now : Z) (header : string) (next : M unit) (w : World) :
  header <> "" ->
  Js.lacks " " header = true ->
  AuthMiddleware.authenticate env now (bare (Some header)) next w
  = (Abrupt (TypeError "res.status(...).jjson is not a function"),
     with_res {| statusCode := 401; sent := sent (res w) |} w).
Proof.
  intros Hne Hlacks. unfold AuthMiddleware.authenticate.
  cbn [authorization bare Js.if_falsy].
  apply String.eqb_neq in Hne. rewrite Hne.
  now rewrite split_lacks.
Qed.

Lemma header_without_space_throws_witness :
  let tok := Jwt.encode {| id := 7; email := "a@b.c"; iat := 1000; exp := 4600 |}
                        "chaewon" in
  let w := arrive {| online := true; users := []; next_id := 1 |} in
  AuthMiddleware.authenticate {| JWT_SECRET := None |} 1001 (bare (Some tok))
    AuthMiddleware.next_stage w
  = (Abrupt (TypeError "res.status(...).jjson is not a function"),
     with_res {| statusCode := 401; sent := None |} w).
Proof.
  intros tok w.
  apply (header_without_space_throws {| JWT_SECRET := None |} 1001 tok).
  - discriminate.
  - vm_compute. reflexivity.
Defined.

(** Two spaces after the scheme word make the token segment empty: the
    middleware ends in the [jjson] call whatever follows. *)
Theorem double_space_throws
    (env : Env) (now : Z) (scheme rest : string) (next : M unit) (w : World) :
  Js.lacks " " scheme = true ->
  AuthMiddleware.authenticate env now (bare (Some (scheme ++ "  " ++ rest))) next w
  = (Abrupt (TypeError "res.status(...).jjson is not a function"),
     with_res {| statusCode := 401; sent := sent (res w) |} w).
Proof.
  intros Hscheme. unfold AuthMiddleware.authenticate.
  cbn [authorization bare Js.if_falsy append].
  replace (String.eqb (scheme ++ String " " (String " " rest)) "") with false
    by (destruct scheme; reflexivity).
  rewrite split_app by assumption.
  cbn [Js.split Ascii.eqb Bool.eqb Js.index nth_error Js.if_falsy String.eqb].
  reflexivity.
Qed.

Lemma double_space_throws_witness :
  let tok := Jwt.encode {| id := 7; email := "a@b.c"; iat := 1000; exp := 4600 |}
                        "chaewon" in
  let w := arrive {| online := true; users := []; next_id := 1 |} in
  AuthMiddleware.authenticate {| JWT_SECRET := None |} 1001
    (bare (Some ("Bearer" ++ "  " ++ tok))) AuthMiddleware.next_stage w
  = (Abrupt (TypeError "res.status(...).jjson is not a function"),
     with_res {| statusCode := 401; sent := None |} w).
Proof.
  intros tok w.
  apply (double_space_throws {| JWT_SECRET := None |} 1001 "Bearer" tok).
  reflexivity.
Defined.

(** Only the second word of the header is read: whatever follows the
    token after another space changes nothing. *)
Theorem words_after_token_are_ignored
    (env : Env) (now : Z) (scheme tok rest : string) (next : M unit) (w : World) :
  Js.lacks " " scheme = true ->
  Js.lacks " " tok = true ->
  AuthMiddleware.authenticate env now
    (bare (Some (scheme ++ " " ++ tok ++ " " ++ rest))) next w
  = AuthMiddleware.authenticate env now (bare (Some (scheme ++ " " ++ tok))) next w.
Proof.
  intros Hscheme Htok. unfold AuthMiddleware.authenticate.
  cbn [authorization bare Js.if_falsy append].
  replace (String.eqb (scheme ++ String " " (tok ++ String " " rest)) "")
    with false by (destruct scheme; reflexivity).
  replace (String.eqb (scheme ++ String " " tok) "")
    with false by (destruct scheme; reflexivity).
  rewrite !split_app by assumption.
  rewrite (split_lacks " " tok) by assumption.
  reflexivity.
Qed.

Lemma words_after_token_are_ignored_witness :
  let tok := Jwt.encode {| id := 7; email := "a@b.c"; iat := 1000; exp := 4600 |}
                        "chaewon" in
  let w := arrive {| online := true; users := []; next_id := 1 |} in
  AuthMiddleware.authenticate {| JWT_SECRET := None |} 1001
    (bare (Some ("Bearer" ++ " " ++ tok ++ " " ++ "and more words")))
    AuthMiddleware.next_stage w
  = AuthMiddleware.authenticate {| JWT_SECRET := None |} 1001
      (bare (Some ("Bearer" ++ " " ++ tok))) AuthMiddleware.next_stage w.
Proof.
  intros tok w.
  apply (words_after_token_are_ignored
           {| JWT_SECRET := None |} 1001 "Bearer" tok "and more words").
  - reflexivity.
  - vm_compute. reflexivity.
Defined.

(** ** The auth handlers on a reachable store *)

(** [login] on a reachable store, case by case. *)
Lemma login_run (env : Env) (now : Z) (req : Req AuthenController.AuthBody) (w : World) :
  online (db w) = true ->
  AuthenController.login env now req w
  = match User.lookup (AuthenController.body_email (body req)) (users (db w)) with
    | None => (Normal tt, respond 404 (message "User not found") w)
    | Some u =>
        if Bcrypt.compare (AuthenController.body_password (body req)) (user_password u)
        then (Normal tt,
              with_res
                {| statusCode := statusCode (res w);
                   sent := Some (JObj
                     [("token",
                       JStr (Jwt.encode {| id := user_id u; email := user_email u;
                                           iat := now; exp := now + 3600 |}
                                        (AuthenController.SECRET env)));
                      ("user", AuthenController.public_user u)]) |} w)
        else (Normal tt, respond 401 (message "Invalid email or password") w)
    end.
Proof.
  intros Honline. unfold AuthenController.login, bind, User.findOne.
  rewrite Honline.
  destruct (User.lookup _ _) as [u|]; [|reflexivity].
  destruct (Bcrypt.compare _ _); [|reflexivity].
  cbn [negb]. unfold lift.
  rewrite sign_one_hour by apply controller_secret_not_empty.
  reflexivity.
Qed.

(** [register] on a reachable store, case by case. *)
Lemma register_run (salt : string) (req : Req AuthenController.AuthBody) (w : World) :
  online (db w) = true ->
  let mail := AuthenController.body_email (body req) in
  let row := {| user_id := next_id (db w);
                user_name := AuthenController.body_name (body req);
                user_email := mail;
                user_password :=
                  Bcrypt.hash (AuthenController.body_password (body req)) 10 salt |} in
  AuthenController.register salt req w
  = match User.lookup mail (users (db w)) with
    | Some _ => (Normal tt, respond 400 (message "Email already exists") w)
    | None =>
        (Normal tt,
         respond 201
           (JObj [("message", JStr "User registered");
                  ("user", AuthenController.public_user row)])
           (with_db {| online := true; users := users (db w) ++ [row];
                       next_id := next_id (db w) + 1 |} w))
    end.
Proof.
  intros Honline mail row.
  unfold AuthenController.register, bind, User.findOne, User.create.
  fold mail. rewrite Honline.
  destruct (User.lookup mail (users (db w))) eqn:Hlookup; [reflexivity|].
  cbn [db with_db res]. rewrite Honline, Hlookup. reflexivity.
Qed.

(** [login] and [getAllUsers] only read the store: whatever the request
    and however they end, the store is as it was. *)
Theorem login_and_listing_leave_the_store
    (env : Env) (now : Z) (req : Req AuthenController.AuthBody) (w : World) :
  db (snd (AuthenController.login env now req w)) = db w
  /\ db (snd (AuthenController.getAllUsers req w)) = db w.
Proof.
  split.
  - unfold AuthenController.login, bind, User.findOne.
    destruct (online (db w)); [|reflexivity].
    destruct (User.lookup _ _) as [u|]; [|reflexivity].
    destruct (Bcrypt.compare _ _); [|reflexivity].
    cbn [negb]. unfold lift.
    destruct (Jwt.sign _ _ _ _); reflexivity.
  - unfold AuthenController.getAllUsers, bind, User.findAll.
    destruct (online (db w)); reflexivity.
Qed.

(** After a registration that succeeded, [login] under that email answers
    200 for exactly the registered password, with a token for the id and
    email of the new row, and 401 for every other password.  This is for
    passwords within what bcrypt tells apart: at most 72 bytes and no NUL
    byte (bcrypt reads 72 bytes of the password followed by NUL, repeated). *)
Theorem login_accepts_exactly_the_registered_password
    (env : Env) (now : Z) (salt : string)
    (req : Req AuthenController.AuthBody) (attempt : string) (d : Db) :
  let mail := AuthenController.body_email (body req) in
  let password := AuthenController.body_password (body req) in
  let w1 := arrive (db (snd (AuthenController.register salt req (arrive d)))) in
  let again := {| authorization := None;
                  body := AuthenController.mkAuthBody "" mail attempt |} in
  online d = true ->
  User.lookup mail (users d) = None ->
  (String.length password <= 72)%nat ->
  (String.length attempt <= 72)%nat ->
  Js.lacks Ascii.zero password = true ->
  Js.lacks Ascii.zero attempt = true ->
  AuthenController.login env now again w1
  = if String.eqb password attempt then
      (Normal tt,
       respond 200
         (JObj [("token",
                 JStr (Jwt.encode {| id := next_id d; email := mail;
                                     iat := now; exp := now + 3600 |}
                                  (AuthenController.SECRET env)));
                ("user", JObj [("id", JNum (next_id d)); ("email", JStr mail)])])
         w1)
    else (Normal tt, respond 401 (message "Invalid email or password") w1).
Proof.
  intros mail password w1 again Honline Hfresh _ _ _ _.
  assert (Hdb : db w1
                = {| online := true;
                     users := users d
                              ++ [{| user_id := next_id d;
                                     user_name := AuthenController.body_name (body req);
                                     user_email := mail;
                                     user_password := Bcrypt.hash password 10 salt |}];
                     next_id := next_id d + 1 |}).
  { unfold w1. rewrite register_run by exact Honline.
    cbn [db arrive]. fold mail. rewrite Hfresh. reflexivity. }
  rewrite login_run by (rewrite Hdb; reflexivity).
  rewrite Hdb. cbn [users again body AuthenController.body_email
                    AuthenController.body_password].
  rewrite lookup_app, Hfresh. cbn [User.lookup user_email].
  rewrite String.eqb_refl. cbn [user_password].
  rewrite compare_hash.
  destruct (String.eqb password attempt); reflexivity.
Qed.

Lemma login_accepts_exactly_the_registered_password_witness :
  let d := {| online := true; users := []; next_id := 1 |} in
  let req := {| authorization := None;
                body := AuthenController.mkAuthBody
                          "Ra Fat" "RaFat@gmail.com" "RaFat21" |} in
  let w1 := arrive (db (snd (AuthenController.register "salt" req (arrive d)))) in
  AuthenController.login {| JWT_SECRET := None |} 1000
    {| authorization := None;
       body := AuthenController.mkAuthBody "" "RaFat@gmail.com" "rafat21" |} w1
  = (Normal tt, respond 401 (message "Invalid email or password") w1).
Proof.
  intros d req w1.
  apply (login_accepts_exactly_the_registered_password
           {| JWT_SECRET := None |} 1000 "salt" req "rafat21" d).
  - reflexivity.
  - reflexivity.
  - simpl. lia.
  - simpl. lia.
  - reflexivity.
  - reflexivity.
Defined.

(** The store after registering a new email. *)
Lemma register_fresh_store (salt : string) (req : Req AuthenController.AuthBody) (d : Db) :
  online d = true ->
  User.lookup (AuthenController.body_email (body req)) (users d) = None ->
  db (snd (AuthenController.register salt req (arrive d)))
  = {| online := true;
       users := users d
                ++ [{| user_id := next_id d;
                       user_name := AuthenController.body_name (body req);
                       user_email := AuthenController.body_email (body req);
                       user_password :=
                         Bcrypt.hash (AuthenController.body_password (body req))
                                     10 salt |}];
       next_id := next_id d + 1 |}.
Proof.
  intros Honline Hfresh. rewrite register_run by exact Honline.
  cbn [db arrive]. rewrite Hfresh. reflexivity.
Qed.

(** Register, log in, then use the token, with [JWT_SECRET] configured:
    the middleware authorizes the request with the claims of the new user
    at every clock before [now + 3600], and answers 401
    [{message: "Invalid token"}] from [now + 3600] on. *)
Theorem session_lasts_one_hour_when_configured
    (s salt : string) (now : Z) (req : Req AuthenController.AuthBody) (d : Db) :
  let env := {| JWT_SECRET := Some s |} in
  let mail := AuthenController.body_email (body req) in
  let w1 := arrive (db (snd (AuthenController.register salt req (arrive d)))) in
  let w2 := snd (AuthenController.login env now req w1) in
  s <> "" ->
  online d = true ->
  User.lookup mail (users d) = None ->
  exists tok,
    token_of w2 = Some tok
    /\ forall (t : Z) (w : World),
         AuthMiddleware.authenticate env t (bare (Some ("Bearer " ++ tok)))
           AuthMiddleware.next_stage w
         = if t <? now + 3600 then
             (Normal tt,
              authorized {| id := next_id d; email := mail;
                            iat := now; exp := now + 3600 |} w)
           else (Normal tt, respond 401 (message "Invalid token") w).
Proof.
  intros env mail w1 w2 Hs Honline Hfresh.
  destruct (secrets_agree_when_configured s Hs) as [Hc Hm].
  fold env in Hc, Hm.
  set (p := {| id := next_id d; email := mail; iat := now; exp := now + 3600 |}).
  exists (Jwt.encode p s). split.
  - unfold w2, w1. rewrite login_run
      by (rewrite register_fresh_store by assumption; reflexivity).
    rewrite register_fresh_store by assumption.
    cbn [db arrive users]. fold mail.
    rewrite lookup_app, Hfresh. cbn [User.lookup user_email].
    rewrite String.eqb_refl. cbn [user_password].
    rewrite compare_hash, String.eqb_refl, Hc. reflexivity.
  - intros t w.
    assert (Hword : Js.index (Js.split " " ("Bearer " ++ Jwt.encode p s)) 1
                    = Some (Jwt.encode p s))
      by (apply (second_word "Bearer"); [reflexivity | apply encode_lacks_space]).
    assert (Hverify : Jwt.verify (Jwt.encode p s) (AuthMiddleware.SECRET env) t
                      = if now + 3600 <=? t
                        then Abrupt (TokenExpiredError "jwt expired" (now + 3600))
                        else Normal p)
      by (now rewrite Hm, verify_encode, String.eqb_refl).
    destruct (Z.ltb_spec t (now + 3600)) as [Hlt|Hge].
    + rewrite (authenticate_accepts env t AuthMiddleware.next_stage w
                 ("Bearer " ++ Jwt.encode p s) (Jwt.encode p s) p);
        [reflexivity | discriminate | exact Hword | apply encode_not_empty |].
      rewrite Hverify. destruct (Z.leb_spec (now + 3600) t); [lia | reflexivity].
    + apply (authenticate_rejects env t AuthMiddleware.next_stage w
               ("Bearer " ++ Jwt.encode p s) (Jwt.encode p s)
               (TokenExpiredError "jwt expired" (now + 3600)));
        [discriminate | exact Hword | apply encode_not_empty |].
      rewrite Hverify. destruct (Z.leb_spec (now + 3600) t); [reflexivity | lia].
Qed.

Lemma session_lasts_one_hour_when_configured_witness :
  let env := {| JWT_SECRET := Some "s3cret" |} in
  let d := {| online := true; users := []; next_id := 1 |} in
  let req := {| authorization := None;
                body := AuthenController.mkAuthBody
                          "Ra Fat" "RaFat@gmail.com" "RaFat21" |} in
  let w1 := arrive (db (snd (AuthenController.register "salt" req (arrive d)))) in
  let w2 := snd (AuthenController.login env 1000 req w1) in
  exists tok,
    token_of w2 = Some tok
    /\ AuthMiddleware.authenticate env 4599 (bare (Some ("Bearer " ++ tok)))
         AuthMiddleware.next_stage w2
       = (Normal tt,
          authorized {| id := 1; email := "RaFat@gmail.com";
                        iat := 1000; exp := 4600 |} w2)
    /\ AuthMiddleware.authenticate env 4600 (bare (Some ("Bearer " ++ tok)))
         AuthMiddleware.next_stage w2
       = (Normal tt, respond 401 (message "Invalid token") w2).
Proof.
  intros env d req w1 w2.
  destruct (session_lasts_one_hour_when_configured "s3cret" "salt" 1000 req d)
    as (tok & Htok & Huse); [discriminate | reflexivity | reflexivity |].
  exists tok. split; [exact Htok|]. split.
  - exact (Huse 4599 w2).
  - exact (Huse 4600 w2).
Defined.

(** ** The stack of [index.js] and the [/auth] router *)

(** The middleware reads nothing of the request but its header. *)
Lemma authenticate_reads_header
    {B : Type} (env : Env) (now : Z) (req : Req B) (next : M unit) (w : World) :
  AuthMiddleware.authenticate env now req next w
  = AuthMiddleware.authenticate env now (bare (authorization req)) next w.
Proof. reflexivity. Qed.

Lemma next_calls_moved (n : nat) : Nat.eqb (S n) n = false.
Proof. induction n as [|n IH]; [reflexivity | exact IH]. Qed.

Section Stack.

Context {B : Type}.
Variable credentials : B -> AuthenController.AuthBody.
Variable mounted : string -> Express.Incoming B -> bool.
Variable routed : string -> string -> Express.Incoming B -> bool.
Variables (env : Env) (now : Z) (salt : string).
Variable docs : Express.Incoming B -> M unit -> M unit.
Variable below_gate : Express.Incoming B -> M unit.

#[local] Abbreviation app := (Server.app credentials mounted routed env now salt docs below_gate).
#[local] Abbreviation gate r :=
  (Express.layer (AuthMiddleware.authenticate env now (Express.request r))
                 (below_gate r)).

Lemma app_at_gate (r : Express.Incoming B) :
  Server.reaches_gate mounted routed r -> app r = gate r.
Proof.
  intros [Hdocs Hauth]. unfold Server.app. cbv zeta. rewrite Hdocs.
  destruct Hauth as [->|(H1 & H2 & H3)]; [reflexivity|].
  destruct (mounted "/auth" r); [|reflexivity].
  unfold Server.authRoutes. now rewrite H1, H2, H3.
Qed.

(** The gate as a function of the middleware's verdict. *)
Lemma gate_refusal (r : Express.Incoming B) (w : World) (status : Z) (payload : Json) :
  AuthMiddleware.authenticate env now (bare (authorization (Express.request r)))
    AuthMiddleware.next_stage w
  = (Normal tt, respond status payload w) ->
  gate r w = (Normal tt, respond status payload w).
Proof.
  intros H. unfold Express.layer.
  rewrite authenticate_reads_header, H.
  cbn [next_calls respond with_res]. now rewrite Nat.eqb_refl.
Qed.

Lemma gate_passage (r : Express.Incoming B) (w : World) (p : Payload) :
  AuthMiddleware.authenticate env now (bare (authorization (Express.request r)))
    AuthMiddleware.next_stage w
  = (Normal tt, authorized p w) ->
  gate r w = below_gate r (authorized p w).
Proof.
  intros H. unfold Express.layer.
  rewrite authenticate_reads_header, H.
  cbn [next_calls authorized]. now rewrite next_calls_moved.
Qed.

(** Every request that is for neither [/docs] nor a route of the [/auth]
    router (the student, course and teacher routes and the welcome route
    [/] among them) is stopped at the gate unless authorized: without an
    [Authorization] header the answer is 401
    [{message: "No token provided"}], with a token that fails verification
    401 [{message: "Invalid token"}], and nothing mounted below the gate
    runs. *)
Theorem gate_blocks_unauthenticated (r : Express.Incoming B) (w : World) :
  Server.reaches_gate mounted routed r ->
  (authorization (Express.request r) = None ->
     app r w = (Normal tt, respond 401 (message "No token provided") w))
  /\ (forall header tok e,
        authorization (Express.request r) = Some header ->
        header <> "" ->
        Js.index (Js.split " " header) 1 = Some tok ->
        tok <> "" ->
        Jwt.verify tok (AuthMiddleware.SECRET env) now = Abrupt e ->
        app r w = (Normal tt, respond 401 (message "Invalid token") w)).
Proof.
  intros Hgate. rewrite (app_at_gate r Hgate). split.
  - intros Hnone. apply gate_refusal. now rewrite Hnone.
  - intros header tok e Hsome Hne Hword Htok Hverify.
    apply gate_refusal. rewrite Hsome.
    now apply authenticate_rejects with tok e.
Qed.

(** With a token that verifies, such a request passes the gate: what is
    mounted below runs, on a request that carries the decoded claims. *)
Theorem gate_passes_authorized
    (r : Express.Incoming B) (w : World) (scheme tok : string) (p : Payload) :
  Server.reaches_gate mounted routed r ->
  authorization (Express.request r) = Some (scheme ++ " " ++ tok) ->
  Js.lacks " " scheme = true ->
  Jwt.verify tok (AuthMiddleware.SECRET env) now = Normal p ->
  app r w = below_gate r (authorized p w).
Proof.
  intros Hgate Hsome Hscheme Hverify. rewrite (app_at_gate r Hgate).
  apply gate_passage. rewrite Hsome.
  destruct (verify_accepts_one_word _ _ _ _ Hverify) as [Hword Hne].
  rewrite (authenticate_accepts env now AuthMiddleware.next_stage w
             (scheme ++ " " ++ tok) tok p);
    auto using second_word, scheme_header_not_empty.
Qed.

(** [register] and [login] are mounted above the gate: a request for
    either is answered by the handler itself, whatever its
    [Authorization] header, and the middleware does not run. *)
Theorem auth_routes_are_not_gated (r : Express.Incoming B) (w : World) :
  (Server.reaches_auth_route mounted routed "POST" "/register" r ->
     app r w = AuthenController.register salt (Server.auth_request credentials r) w)
  /\ (Server.reaches_auth_route mounted routed "POST" "/login" r ->
        app r w = AuthenController.login env now (Server.auth_request credentials r) w).
Proof.
  split; intros (Hdocs & Hauth & Hroutes);
    unfold Server.app, Server.authRoutes; cbv zeta; rewrite Hdocs, Hauth.
  - rewrite (Hroutes "POST" "/register") by (simpl; auto). reflexivity.
  - rewrite (Hroutes "POST" "/register") by (simpl; auto).
    rewrite (Hroutes "POST" "/login") by (simpl; auto). reflexivity.
Qed.

(** [GET /auth/users] runs [authenticate] first.  Without a header the
    answer is 401 and no user is listed.  With a token that verifies and
    the store reachable, the answer is the list of the rows in store
    order, each reduced to the three columns [getAllUsers] asks for, [id],
    [name] and [email]: the password hash is in no entry. *)
Theorem users_route_is_guarded (r : Express.Incoming B) (w : World) :
  Server.reaches_auth_route mounted routed "GET" "/users" r ->
  (authorization (Express.request r) = None ->
     app r w = (Normal tt, respond 401 (message "No token provided") w))
  /\ (forall scheme tok p,
        authorization (Express.request r) = Some (scheme ++ " " ++ tok) ->
        Js.lacks " " scheme = true ->
        Jwt.verify tok (AuthMiddleware.SECRET env) now = Normal p ->
        online (db w) = true ->
        app r w
        = (Normal tt,
           with_res
             {| statusCode := statusCode (res w);
                sent := Some (JArr (map (fun u =>
                                 JObj [("id", JNum (user_id u));
                                       ("name", JStr (user_name u));
                                       ("email", JStr (user_email u))])
                               (users (db w)))) |}
             (authorized p w))).
Proof.
  intros (Hdocs & Hauth & Hroutes).
  assert (Happ : app r
                 = Express.layer
                     (AuthMiddleware.authenticate env now (Express.request r))
                     (AuthenController.getAllUsers (Express.request r))).
  { unfold Server.app, Server.authRoutes. cbv zeta. rewrite Hdocs, Hauth.
    rewrite (Hroutes "POST" "/register") by (simpl; auto).
    rewrite (Hroutes "POST" "/login") by (simpl; auto).
    rewrite (Hroutes "GET" "/users") by (simpl; auto). reflexivity. }
  rewrite Happ. unfold Express.layer. rewrite authenticate_reads_header. split.
  - intros ->. cbn. now rewrite Nat.eqb_refl.
  - intros scheme tok p -> Hscheme Hverify Honline.
    destruct (verify_accepts_one_word _ _ _ _ Hverify) as [Hword Hne].
    rewrite (authenticate_accepts env now AuthMiddleware.next_stage w
               (scheme ++ " " ++ tok) tok p);
      auto using second_word, scheme_header_not_empty.
    cbn [try_catch AuthMiddleware.next_stage with_user next_calls res req_user db].
    rewrite next_calls_moved.
    unfold AuthenController.getAllUsers, bind, User.findAll. cbn [db].
    rewrite Honline. reflexivity.
Qed.

End Stack.

Lemma gate_blocks_unauthenticated_witness :
  let mounted := fun prefix (r : Express.Incoming unit) =>
                   String.prefix prefix (Express.url r) in
  let routed := fun verb path (r : Express.Incoming unit) =>
                  String.eqb verb (Express.method r)
                  && String.eqb ("/auth" ++ path) (Express.url r) in
  let welcome := fun _ : Express.Incoming unit =>
                   Response.call "json" (JStr "Welcome to School API!") in
  let w := arrive {| online := true; users := []; next_id := 1 |} in
  Server.app (fun _ => AuthenController.mkAuthBody "" "" "") mounted routed
    {| JWT_SECRET := None |} 1000 "salt" (fun _ k => k) welcome
    (Express.mkIncoming "GET" "/" (bare None)) w
  = (Normal tt, respond 401 (message "No token provided") w).
Proof.
  intros mounted routed welcome w.
  apply (gate_blocks_unauthenticated
           (fun _ => AuthenController.mkAuthBody "" "" "") mounted routed
           {| JWT_SECRET := None |} 1000 "salt" (fun _ k => k) welcome
           (Express.mkIncoming "GET" "/" (bare None)) w).
  - split; [reflexivity | left; reflexivity].
  - reflexivity.
Defined.

Lemma gate_passes_authorized_witness :
  let mounted := fun prefix (r : Express.Incoming unit) =>
                   String.prefix prefix (Express.url r) in
  let routed := fun verb path (r : Express.Incoming unit) =>
                  String.eqb verb (Express.method r)
                  && String.eqb ("/auth" ++ path) (Express.url r) in
  let welcome := fun _ : Express.Incoming unit =>
                   Response.call "json" (JStr "Welcome to School API!") in
  let w := arrive {| online := true; users := []; next_id := 1 |} in
  let p := {| id := 7; email := "a@b.c"; iat := 1000; exp := 4600 |} in
  let tok := Jwt.encode p "chaewon" in
  Server.app (fun _ => AuthenController.mkAuthBody "" "" "") mounted routed
    {| JWT_SECRET := None |} 1001 "salt" (fun _ k => k) welcome
    (Express.mkIncoming "GET" "/" (bare (Some ("Bearer" ++ " " ++ tok)))) w
  = welcome (Express.mkIncoming "GET" "/" (bare (Some ("Bearer" ++ " " ++ tok))))
      (authorized p w).
Proof.
  intros mounted routed welcome w p tok.
  apply (gate_passes_authorized
           (fun _ => AuthenController.mkAuthBody "" "" "") mounted routed
           {| JWT_SECRET := None |} 1001 "salt" (fun _ k => k) welcome
           (Express.mkIncoming "GET" "/" (bare (Some ("Bearer" ++ " " ++ tok))))
           w "Bearer" tok p).
  - split; [reflexivity | left; reflexivity].
  - reflexivity.
  - reflexivity.
  - vm_compute. reflexivity.
Defined.

Lemma auth_routes_are_not_gated_witness :
  let mounted := fun prefix (r : Express.Incoming AuthenController.AuthBody) =>
                   String.prefix prefix (Express.url r) in
  let routed := fun verb path (r : Express.Incoming AuthenController.AuthBody) =>
                  String.eqb verb (Express.method r)
                  && String.eqb ("/auth" ++ path) (Express.url r) in
  let w := arrive {| online := true; users := []; next_id := 1 |} in
  let req := {| authorization := None;
                body := AuthenController.mkAuthBody
                          "Ra Fat" "RaFat@gmail.com" "RaFat21" |} in
  Server.app (fun b => b) mounted routed {| JWT_SECRET := None |} 1000 "salt"
    (fun _ k => k) (fun _ => ret tt)
    (Express.mkIncoming "POST" "/auth/register" req) w
  = AuthenController.register "salt" req w.
Proof.
  intros mounted routed w req.
  apply (auth_routes_are_not_gated
           (fun b => b) mounted routed {| JWT_SECRET := None |} 1000 "salt"
           (fun _ k => k) (fun _ => ret tt)
           (Express.mkIncoming "POST" "/auth/register" req) w).
  split; [reflexivity | split; [reflexivity|]].
  intros v p [[= <- <-]|[[= <- <-]|[[= <- <-]|[]]]]; reflexivity.
Defined.

Lemma users_route_is_guarded_witness :
  let mounted := fun prefix (r : Express.Incoming unit) =>
                   String.prefix prefix (Express.url r) in
  let routed := fun verb path (r : Express.Incoming unit) =>
                  String.eqb verb (Express.method r)
                  && String.eqb ("/auth" ++ path) (Express.url r) in
  let row := {| user_id := 1; user_name := "Ra Fat";
                user_email := "RaFat@gmail.com";
                user_password := Bcrypt.hash "RaFat21" 10 "salt" |} in
  let w := arrive {| online := true; users := [row]; next_id := 2 |} in
  let p := {| id := 1; email := "RaFat@gmail.com"; iat := 1000; exp := 4600 |} in
  let tok := Jwt.encode p "s3cret" in
  let run header :=
    Server.app (fun _ => AuthenController.mkAuthBody "" "" "") mounted routed
      {| JWT_SECRET := Some "s3cret" |} 1001 "salt" (fun _ k => k) (fun _ => ret tt)
      (Express.mkIncoming "GET" "/auth/users" (bare header)) w in
  run None = (Normal tt, respond 401 (message "No token provided") w)
  /\ run (Some ("Bearer" ++ " " ++ tok))
     = (Normal tt,
        with_res
          {| statusCode := 200;
             sent := Some (JArr [JObj [("id", JNum 1); ("name", JStr "Ra Fat");
                                       ("email", JStr "RaFat@gmail.com")]]) |}
          (authorized p w)).
Proof.
  intros mounted routed row w p tok run.
  assert (Hroute : forall header,
            Server.reaches_auth_route mounted routed "GET" "/users"
              (Express.mkIncoming "GET" "/auth/users" (bare header))).
  { intros header. split; [reflexivity | split; [reflexivity|]].
    intros v q [[= <- <-]|[[= <- <-]|[[= <- <-]|[]]]]; reflexivity. }
  split.
  - apply (users_route_is_guarded
             (fun _ => AuthenController.mkAuthBody "" "" "") mounted routed
             {| JWT_SECRET := Some "s3cret" |} 1001 "salt" (fun _ k => k)
             (fun _ => ret tt)
             (Express.mkIncoming "GET" "/auth/users" (bare None)) w (Hroute None)).
    reflexivity.
  - apply (users_route_is_guarded
             (fun _ => AuthenController.mkAuthBody "" "" "") mounted routed
             {| JWT_SECRET := Some "s3cret" |} 1001 "salt" (fun _ k => k)
             (fun _ => ret tt)
             (Express.mkIncoming "GET" "/auth/users"
                (bare (Some ("Bearer" ++ " " ++ tok)))) w
             (Hroute _)) with (scheme := "Bearer") (tok := tok).
    + reflexivity.
    + reflexivity.
    + vm_compute. reflexivity.
    + reflexivity.
Defined.

(** ** Numbers in query strings *)

Ltac digit_step :=
  cbn [JsNumber.digits];
  match goal with
  | |- context [JsNumber.digit_value 10 ?c] =>
      let v := eval vm_compute in (JsNumber.digit_value 10 c) in
      change (JsNumber.digit_value 10 c) with v
  end;
  cbv iota.

Lemma digits_uint_acc (d : Decimal.uint) (a : positive) :
  JsNumber.digits 10 (Some (Z.pos a)) (NilEmpty.string_of_uint d)
  = Some (Z.pos (Pos.of_uint_acc d a)).
Proof.
  revert a.
  induction d; intros a; cbn [NilEmpty.string_of_uint Pos.of_uint_acc];
    [reflexivity | ..];
    digit_step; rewrite <- IHd; do 2 f_equal; lia.
Qed.

Lemma digits_uint (d : Decimal.uint) :
  JsNumber.digits 10 (Some 0) (NilEmpty.string_of_uint d)
  = Some (Z.of_N (Pos.of_uint d)).
Proof.
  induction d; cbn [NilEmpty.string_of_uint Pos.of_uint];
    [reflexivity | ..];
    digit_step; [exact IHd | ..]; apply digits_uint_acc.
Qed.

Lemma parseInt_decimal_text (d : Decimal.uint) :
  d <> Decimal.Nil ->
  let finish (sign : Z) :=
    match JsNumber.digits 10 (Some 0) (NilEmpty.string_of_uint d) with
    | None => Some JsNumber.NaN
    | Some v => if JsNumber.safe v then Some (JsNumber.Int (sign * v)) else None
    end in
  JsNumber.parseInt (NilEmpty.string_of_uint d) = finish 1
  /\ JsNumber.parseInt (String "-" (NilEmpty.string_of_uint d)) = finish (-1).
Proof.
  intros Hd finish. unfold finish.
  destruct d as [|l|l|l|l|l|l|l|l|l|l]; [contradiction | ..];
    (split; [destruct l | destruct l]); reflexivity.
Qed.

(** [parseInt] reads back the decimal text of every integer of magnitude
    up to 2^53. *)
Lemma parseInt_dec (z : Z) :
  JsNumber.safe z = true ->
  JsNumber.parseInt (Codec.dec z) = Some (JsNumber.Int z).
Proof.
  intros Hsafe. destruct z as [|p|p]; [reflexivity | |];
    unfold Codec.dec; cbn [Z.to_int NilEmpty.string_of_int];
    assert (Hd : Pos.to_uint p <> Decimal.Nil)
      by (intros H; pose proof (DecimalPos.Unsigned.of_to p) as Hp;
          rewrite H in Hp; discriminate);
    destruct (parseInt_decimal_text _ Hd) as [Hpos Hneg].
  - rewrite Hpos, digits_uint, DecimalPos.Unsigned.of_to.
    cbn [Z.of_N]. now rewrite Hsafe.
  - rewrite Hneg, digits_uint, DecimalPos.Unsigned.of_to.
    cbn [Z.of_N].
    replace (JsNumber.safe (Z.pos p)) with (JsNumber.safe (Z.neg p))
      by reflexivity.
    now rewrite Hsafe.
Qed.

Lemma or_default_not_zero (n : JsNumber.Num) (d : Z) :
  d <> 0 -> JsNumber.or_default n d <> 0.
Proof.
  intros Hd. destruct n as [|z]; [exact Hd|]. simpl.
  destruct (Z.eqb_spec z 0); assumption.
Qed.

(** ** The course handlers *)


(** Paging of [getAllCourses], for a limit and a page that [parseInt]
    reads as [NaN] (an absent parameter among them) or as an integer of
    magnitude at most 2^53, the offset staying in that range: the limit
    and the page used are never zero; an absent, non-numeric or zero
    parameter falls back to 10 and to 1; [findAll] gets that limit and the
    offset [(page - 1) * limit], which is 0 on the default page. *)
Theorem listing_paging_defaults (q : Courses.Query) (l p : JsNumber.Num) :
  let limit := JsNumber.or_default l 10 in
  let page := JsNumber.or_default p 1 in
  JsNumber.parseInt (JsNumber.to_string (Courses.q_limit q)) = Some l ->
  JsNumber.parseInt (JsNumber.to_string (Courses.q_page q)) = Some p ->
  JsNumber.safe (page - 1) = true ->
  JsNumber.safe ((page - 1) * limit) = true ->
  (exists o,
     Courses.plan q = Some (page, o)
     /\ Courses.limit o = limit
     /\ Courses.offset o = (page - 1) * limit)
  /\ limit <> 0
  /\ page <> 0
  /\ (Courses.q_limit q = None \/ l = JsNumber.NaN \/ l = JsNumber.Int 0 ->
      limit = 10)
  /\ (Courses.q_page q = None \/ p = JsNumber.NaN \/ p = JsNumber.Int 0 ->
      page = 1 /\ (page - 1) * limit = 0).
Proof.
  intros limit page Hl Hp Hs1 Hs2.
  split; [|split; [|split; [|split]]].
  - unfold Courses.plan. rewrite Hl, Hp. cbv zeta. fold limit page.
    rewrite Hs1, Hs2. cbn [andb].
    eexists. split; [reflexivity|]. split; reflexivity.
  - apply or_default_not_zero. discriminate.
  - apply or_default_not_zero. discriminate.
  - intros [Habsent|[->| ->]]; [|reflexivity|reflexivity].
    rewrite Habsent in Hl. unfold limit. now injection Hl as <-.
  - intros H.
    assert (Hpage : page = 1).
    { unfold page. destruct H as [Habsent|[->| ->]];
        [|reflexivity|reflexivity].
      rewrite Habsent in Hp. now injection Hp as <-. }
    rewrite Hpage. split; [reflexivity | lia].
Qed.

Lemma listing_paging_defaults_witness :
  let q := {| Courses.q_limit := Some "abc"; Courses.q_page := None;
              Courses.q_sort := None; Courses.q_sortBy := None;
              Courses.q_teacherId := None; Courses.q_populate := None |} in
  exists o, Courses.plan q = Some (1, o)
            /\ Courses.limit o = 10 /\ Courses.offset o = 0.
Proof.
  intros q.
  exact (proj1 (listing_paging_defaults q JsNumber.NaN JsNumber.NaN
                  eq_refl eq_refl eq_refl eq_refl)).
Defined.

(** A limit and a page given as decimal integers are used as they are,
    negative ones included: only zero falls back to the default.  Nothing
    keeps the limit or the offset of [findAll] from being negative. *)
Theorem listing_numbers_are_not_clamped (q : Courses.Query) (l p : Z) :
  let limit := if l =? 0 then 10 else l in
  let page := if p =? 0 then 1 else p in
  Courses.q_limit q = Some (Codec.dec l) ->
  Courses.q_page q = Some (Codec.dec p) ->
  JsNumber.safe l = true ->
  JsNumber.safe p = true ->
  JsNumber.safe (page - 1) = true ->
  JsNumber.safe ((page - 1) * limit) = true ->
  exists o,
    Courses.plan q = Some (page, o)
    /\ Courses.limit o = limit
    /\ Courses.offset o = (page - 1) * limit.
Proof.
  intros limit page Hl Hp Hsl Hsp Hs1 Hs2.
  unfold Courses.plan. rewrite Hl, Hp. cbn [JsNumber.to_string].
  rewrite !parseInt_dec by assumption.
  cbv zeta. cbn [JsNumber.or_default]. fold limit page.
  rewrite Hs1, Hs2. cbn [andb].
  eexists. split; [reflexivity|]. split; reflexivity.
Qed.

Lemma listing_numbers_are_not_clamped_witness :
  let q := {| Courses.q_limit := Some (Codec.dec (-5));
              Courses.q_page := Some (Codec.dec (-2));
              Courses.q_sort := None; Courses.q_sortBy := None;
              Courses.q_teacherId := None; Courses.q_populate := None |} in
  exists o, Courses.plan q = Some (-2, o)
            /\ Courses.limit o = -5 /\ Courses.offset o = 15.
Proof.
  intros q.
  apply (listing_numbers_are_not_clamped q (-5) (-2)); reflexivity.
Defined.



Lemma ceil_div_bounds (total l : Z) :
  0 <= total ->
  (0 < l ->
     (JsNumber.ceil_div total l - 1) * l < total <= JsNumber.ceil_div total l * l)
  /\ (l < 0 -> JsNumber.ceil_div total l <= 0).
Proof.
  intros Htotal. unfold JsNumber.ceil_div. split; intros Hl.
  - pose proof (Z.div_mod (- total) l ltac:(lia)) as Hdm.
    pose proof (Z.mod_pos_bound (- total) l Hl) as Hmod. nia.
  - pose proof (Z.div_mod (- total) l ltac:(lia)) as Hdm.
    pose proof (Z.mod_neg_bound (- total) l Hl) as Hmod. nia.
Qed.

(** A guarded body answers whenever the body answers or throws. *)
Lemma guarded_body_answers (m : M unit) (w : World) :
  (forall w1, m w = (Normal tt, w1) -> sent (res w1) <> None) ->
  fst (try_catch m Courses.internal_error w) = Normal tt
  /\ sent (res (snd (try_catch m Courses.internal_error w))) <> None.
Proof.
  intros Hbody. unfold try_catch.
  destruct (m w) as [[[]|e] w1] eqn:Hm.
  - split; [reflexivity | now apply Hbody].
  - split; [reflexivity | discriminate].
Qed.

Section CourseOrm.

Variable Course_create : Json -> M Json.
Variable Course_count : option string -> M Z.
Variable Course_findAll : Courses.FindOptions -> M Json.
Variable Course_findByPk : string -> option (list Courses.Include) -> M (option Json).
Variable Course_update : Json -> Json -> M Json.
Variable Course_destroy : Json -> M unit.

(** Whatever the ORM does (return, return nothing, reject), each of
    [createCourse], [getCourseById], [updateCourse] and [deleteCourse]
    ends normally and has sent a body: these four do all their work
    inside their [try], so no error of the database leaves them. *)
Theorem course_handlers_always_answer
    (creq : Req Json) (req : Courses.CourseReq) (w : World) :
  let answered (r : Completion unit * World) :=
    fst r = Normal tt /\ sent (res (snd r)) <> None in
  answered (CourseController.createCourse Course_create creq w)
  /\ answered (Courses.getCourseById Course_findByPk req w)
  /\ answered (Courses.updateCourse Course_findByPk Course_update req w)
  /\ answered (Courses.deleteCourse Course_findByPk Course_destroy req w).
Proof.
  intros answered. unfold answered.
  split; [|split; [|split]].
  - apply guarded_body_answers. unfold bind. intros w1.
    destruct (Course_create _ w) as [[course|e] w2]; [|discriminate].
    intros [= <-]. discriminate.
  - apply guarded_body_answers. unfold bind. intros w1.
    destruct (Course_findByPk _ _ w) as [[[course|]|e] w2]; try discriminate;
      intros [= <-]; discriminate.
  - apply guarded_body_answers. unfold bind. intros w1.
    destruct (Course_findByPk _ _ w) as [[[course|]|e] w2]; try discriminate.
    + destruct (Course_update _ _ w2) as [[course'|e] w3]; [|discriminate].
      intros [= <-]. discriminate.
    + intros [= <-]. discriminate.
  - apply guarded_body_answers. unfold bind. intros w1.
    destruct (Course_findByPk _ _ w) as [[[course|]|e] w2]; try discriminate.
    + destruct (Course_destroy _ w2) as [[[]|e] w3]; [|discriminate].
      intros [= <-]. discriminate.
    + intros [= <-]. discriminate.
Qed.

(** A course that is not there: [getCourseById] and [updateCourse] answer
    404 [{message: "Not found"}], [deleteCourse] 404
    [{message: "Course not found"}]; nothing is updated or destroyed. *)
Theorem missing_course_is_404
    (req : Courses.CourseReq) (w w1 : World) :
  (Course_findByPk (Courses.params_id req)
     (Some (Courses.include_of (Courses.q_populate (Courses.query req)))) w
   = (Normal None, w1) ->
   Courses.getCourseById Course_findByPk req w
   = (Normal tt, respond 404 (message "Not found") w1))
  /\ (Course_findByPk (Courses.params_id req) None w = (Normal None, w1) ->
      Courses.updateCourse Course_findByPk Course_update req w
      = (Normal tt, respond 404 (message "Not found") w1)
      /\ Courses.deleteCourse Course_findByPk Course_destroy req w
         = (Normal tt, respond 404 (message "Course not found") w1)).
Proof.
  split; [intros Hfind | intros Hfind; split];
    unfold Courses.getCourseById, Courses.updateCourse, Courses.deleteCourse,
      try_catch, bind;
    rewrite Hfind; reflexivity.
Qed.

(** The answer of [getAllCourses] when the database answers, for a limit,
    a page and an offset that are integers of magnitude at most 2^53 (the
    plan is defined) and a count below 2^53: the status is left as it
    was, [meta] carries the count, the page and the page count, [data] the
    rows.  For a positive limit the page count is the least number of
    pages that hold all rows; for a negative limit it is zero or
    negative. *)
Theorem listing_reports_page_count
    (req : Courses.CourseReq) (page total : Z) (o : Courses.FindOptions)
    (rows : Json) (w w1 w2 : World) :
  Courses.plan (Courses.query req) = Some (page, o) ->
  Course_count (Courses.where_teacherId o) w = (Normal total, w1) ->
  Course_findAll o w1 = (Normal rows, w2) ->
  0 <= total < 2 ^ 53 ->
  let pages := JsNumber.ceil_div total (Courses.limit o) in
  (exists m,
     Courses.getAllCourses Course_count Course_findAll req = Some m
     /\ m w = (Normal tt,
               with_res
                 {| statusCode := statusCode (res w2);
                    sent := Some (JObj [("meta",
                                         JObj [("totalItems", JNum total);
                                               ("page", JNum page);
                                               ("totalPages", JNum pages)]);
                                        ("data", rows)]) |} w2))
  /\ (0 < Courses.limit o ->
      (pages - 1) * Courses.limit o < total <= pages * Courses.limit o)
  /\ (Courses.limit o < 0 -> pages <= 0).
Proof.
  intros Hplan Hcount Hrows [Htotal _] pages. split.
  - unfold Courses.getAllCourses. rewrite Hplan.
    eexists. split; [reflexivity|].
    unfold try_catch, bind. rewrite Hcount, Hrows. reflexivity.
  - apply ceil_div_bounds. exact Htotal.
Qed.

End CourseOrm.

Lemma missing_course_is_404_witness :
  let q := {| Courses.q_limit := None; Courses.q_page := None;
              Courses.q_sort := None; Courses.q_sortBy := None;
              Courses.q_teacherId := None; Courses.q_populate := None |} in
  let req := {| Courses.params_id := "42"; Courses.query := q;
                Courses.payload := JNull |} in
  let w := arrive {| online := true; users := []; next_id := 1 |} in
  Courses.deleteCourse (fun _ _ => ret None) (fun _ => throw (Error "not run")) req w
  = (Normal tt, respond 404 (message "Course not found") w).
Proof.
  intros q req w.
  apply (missing_course_is_404
           (fun _ _ => ret None) (fun c _ => ret c)
           (fun _ => throw (Error "not run")) req w w).
  reflexivity.
Defined.

Lemma listing_reports_page_count_witness :
  let q := {| Courses.q_limit := Some "10"; Courses.q_page := Some "3";
              Courses.q_sort := None; Courses.q_sortBy := None;
              Courses.q_teacherId := None; Courses.q_populate := None |} in
  let req := {| Courses.params_id := ""; Courses.query := q;
                Courses.payload := JNull |} in
  let w := arrive {| online := true; users := []; next_id := 1 |} in
  exists m,
    Courses.getAllCourses (fun _ => ret 25) (fun _ => ret (JArr [])) req = Some m
    /\ m w = (Normal tt,
              with_res
                {| statusCode := 200;
                   sent := Some (JObj [("meta",
                                        JObj [("totalItems", JNum 25);
                                              ("page", JNum 3);
                                              ("totalPages", JNum 3)]);
                                       ("data", JArr [])]) |} w).
Proof.
  intros q req w.
  destruct (Courses.plan q) as [[page o]|] eqn:Hplan; [|discriminate].
  injection Hplan as <- <-.
  exact (proj1 (listing_reports_page_count
                  (fun _ => ret 25) (fun _ => ret (JArr [])) req 3 25 _
                  (JArr []) w w w eq_refl eq_refl eq_refl ltac:(lia))).
Defined.
